(** * AGRI_RECO_GEO: area selection and result classification

    A shallow embedding of the logic of the dashboard front end:

    - [ResultsPanel] (components/ResultsPanel.jsx): [getNDVIStatus],
      [getDroughtStatus], the land cover breakdown and the rainfall total;
    - [App] (App.jsx): [circleToPolygon] and the handlers
      [handleEnableLocation], [handleMapClick], [handleUseMyLocation],
      [handlePolygonComplete], [handleCancelDrawing], [handleClearBoundary]
      and [handleAnalyze]; the conditions under which its controls are
      rendered, and the sessions they allow;
    - the cards the panel mounts: [RainfallChart], and the color scales of
      [PollenCard] and [SolarCard].

    JavaScript numbers are IEEE 754 binary64 values: they are modelled by
    Rocq's primitive floats, whose operations are the same ones bit for bit.
    A value that may be [undefined] or [null] is an [option]. React state is an
    explicit record and every handler is a function from state to state and
    the list of effects it performs on the outside world. *)

From Stdlib Require Import ZArith NArith List String Bool Lia.
From Stdlib Require Import Floats DecimalString.
From Stdlib Require Import Permutation Sorted.
Import ListNotations.

Set Warnings "-inexact-float".
Local Open Scope string_scope.

(** ** JavaScript numbers and the built-ins the sources call *)

Module JS.

(** [Boolean(x)] for a number: false exactly for [0], [-0] and [NaN]. *)
Definition truthy (x : float) : bool :=
  negb (x =? 0)%float && negb (is_nan x).

(** [x || d] where [x] is a number, [undefined] or [null]. *)
Definition or_num (x : option float) (d : float) : float :=
  match x with
  | Some v => if truthy v then v else d
  | None => d
  end.

(** [Boolean(s)] for a string: false exactly for the empty string. *)
Definition truthy_str (s : string) : bool :=
  negb (s =? "")%string.

(** [s || d] where [s] is a string, [undefined] or [null]. *)
Definition or_str (s : option string) (d : string) : string :=
  match s with
  | Some v => if truthy_str v then v else d
  | None => d
  end.

(** The exact value of a number, in units of [2^-1074] (the least positive
    binary64 value, so every finite number is a whole multiple of it); the
    infinities stand beyond every finite value, and [NaN] has no value
    ([0] by convention). *)
Definition scaled (s : spec_float) : Z :=
  match s with
  | S754_zero _ => 0
  | S754_infinity neg => cond_Zopp neg (2 ^ 2200)
  | S754_nan => 0
  | S754_finite neg m e => cond_Zopp neg (Z.pos m * 2 ^ (e + 1074))
  end.

Definition value (x : float) : Z := scaled (Prim2SF x).

Definition is_nan_sf (s : spec_float) : bool :=
  match s with S754_nan => true | _ => false end.

(** An array length or a loop counter as a number.  They are below [2^32],
    so the conversion is exact. *)
Definition of_nat (n : nat) : float :=
  of_uint63 (Uint63.of_Z (Z.of_nat n)).

(** The result of [Number.prototype.toFixed].  [Dec neg n f] is the decimal
    numeral with sign [neg] whose digits are those of [n], the last [f] of
    them after the point (value [n / 10^f]); [Str x] is [String(x)], which
    [toFixed] returns for [NaN], the infinities and magnitudes of [1e21] and
    above. *)
Inductive Fixed : Type :=
| Dec (neg : bool) (n : N) (f : nat)
| Str (x : float).

(** The integer [n] for which [n / 10^f - m * 2^e] is closest to zero, the
    larger one on a tie (step 11 of [toFixed]). *)
Definition round_half_up (m : positive) (e : Z) (f : nat) : N :=
  let scaled := (Z.pos m * 10 ^ Z.of_nat f)%Z in
  match e with
  | Zneg k => Z.to_N ((2 * scaled + 2 ^ Z.pos k) / 2 ^ (Z.pos k + 1))
  | _ => Z.to_N (scaled * 2 ^ e)
  end.

(** [x.toFixed(f)] for [0 <= f <= 100]. *)
Definition toFixed (x : float) (f : nat) : Fixed :=
  match Prim2SF x with
  | S754_zero _ => Dec false 0 f
  | S754_finite neg m e =>
      if (abs x <? 1e21)%float then Dec neg (round_half_up m e f) f
      else Str x
  | _ => Str x
  end.

(** [Number(s)] for a string made by [toFixed]: the binary64 value nearest
    to the numeral, and [x] itself for [String(x)]. *)
Definition Number (s : Fixed) : float :=
  match s with
  | Dec neg N0 _ => if neg then neg_zero else zero
  | Dec neg (Npos n) f =>
      SF2Prim (SF64div (S754_finite neg n 0)
                       (S754_finite false (Z.to_pos (10 ^ Z.of_nat f)) 0))
  | Str x => x
  end.

(** The decimal digits of a whole number, as [String(n)] and a template
    literal give them. *)
Definition digits_of (n : N) : string :=
  NilZero.string_of_uint (N.to_uint n).

Definition pad_left (k : nat) (s : string) : string :=
  String.concat "" (repeat "0" (k - String.length s)) ++ s.

(** The characters of a [toFixed] result, for the numerals ([None] for
    [String(x)], whose digits are not modelled). *)
Definition render (s : Fixed) : option string :=
  match s with
  | Dec neg n f =>
      let ds := pad_left (S f) (digits_of n) in
      let k := (String.length ds - f)%nat in
      let int_part := String.substring 0 k ds in
      let frac_part := String.substring k f ds in
      Some ((if neg then "-" else "") ++ int_part ++
            (match f with O => "" | _ => "." ++ frac_part end))
  | Str _ => None
  end.

(** [Array.prototype.sort(comparefn)].  The sort is stable, and an element
    [a] goes after [b] exactly when [comparefn(a, b) > 0]; a [NaN] from the
    comparator counts as [+0].  When the comparator is consistent on the
    array, this fixes the result, which is the one computed here by
    insertion; when it is not, the language leaves the order to the engine
    and the list computed here is one of the orders allowed. *)
Section Sort.
Context {A : Type} (comparefn : A -> A -> float).

Definition goes_after (a b : A) : bool :=
  (0 <? comparefn a b)%float.

Fixpoint insert (a : A) (l : list A) : list A :=
  match l with
  | [] => [a]
  | b :: l' => if goes_after a b then b :: insert a l' else a :: b :: l'
  end.

Fixpoint sort (l : list A) : list A :=
  match l with
  | [] => []
  | a :: l' => insert a (sort l')
  end.

End Sort.

(** A comparator of the shape [(a, b) => key(b) - key(a)], and the order
    it stands for: [a] is not below [b]. *)
Definition descending {A : Type} (key : A -> float) (a b : A) : float :=
  (key b - key a)%float.

Definition not_below {A : Type} (key : A -> float) (a b : A) : Prop :=
  (key b <=? key a)%float = true.

(** The exponent of the last place of a binary64 number of [x] bits above
    the point ([SpecFloat.fexp] at precision 53). *)
Definition fexp64 (x : Z) : Z := Z.max (x - 53) (-1074).

(** The [Math] object: [PI] is a constant of the language; [cos] and [sin]
    are supplied by the engine, which the language leaves free to
    approximate. *)
Record MathObject : Type := { cos : float -> float; sin : float -> float }.

Definition PI : float := 0x1.921fb54442d18p+1%float.

End JS.

(** ** The analysis result sent back by the service (JSON) *)

Module Api.

(** One entry of [rainfall.features]. *)
Record RainEntry : Type := { date : option string; rain : option float }.

Record Statistics : Type := { total_rainfall : option float }.

Record Rainfall : Type :=
  { features : option (list RainEntry);
    statistics : option Statistics }.

Record Drought : Type := { status : option string }.

(** A JSON object keyed by class code is the list of its entries in the order
    in which [Object.entries] and [Object.values] enumerate them; a key is
    the decimal numeral of the class code. *)
Definition Landcover : Type := list (N * float).

(** The sections the panel hands on without looking inside. *)
Definition Opaque : Type := string.

Record AnalysisResult : Type :=
  { ndvi : option float;
    rainfall : option Rainfall;
    drought : option Drought;
    landcover : option Landcover;
    yield_prediction : option float;
    crop_recommendations : option Opaque;
    weather : option Opaque;
    pollen : option Opaque;
    solar : option Opaque }.

End Api.

(** ** components/ResultsPanel.jsx *)

Module ResultsPanel.

Module LandcoverClass.
Record t : Type := { name : string; color : string; class : string }.
End LandcoverClass.

(** What the two status functions return. *)
Module Badge.
Record t : Type := { status : string; class : string; emoji : string }.
End Badge.

(** The [percent] of a land cover entry: the string made by [toFixed(1)],
    or the number [0]. *)
Inductive Percent : Type :=
| PercentText (s : JS.Fixed)
| PercentZero.

(** One entry of [landcoverStats].  [code] is [parseInt(code)], held as the
    whole number the key reads as (a number of the language holds it
    exactly up to [2^53]; the class codes are below 256). *)
Module Stat.
Record t : Type :=
  { code : N; name : string; color : string; cssClass : string;
    percent : Percent }.
End Stat.

Definition LANDCOVER_CLASSES : list (N * LandcoverClass.t) :=
  let mk n c k :=
    {| LandcoverClass.name := n; LandcoverClass.color := c;
       LandcoverClass.class := k |} in
  [ (10%N, mk "Tree Cover" "#22c55e" "forest");
    (20%N, mk "Shrubland" "#84cc16" "forest");
    (30%N, mk "Grassland" "#a3e635" "forest");
    (40%N, mk "Cropland" "#10b981" "cropland");
    (50%N, mk "Built-up" "#64748b" "urban");
    (60%N, mk "Bare/Sparse" "#d4a574" "urban");
    (70%N, mk "Snow/Ice" "#e0f2fe" "water");
    (80%N, mk "Water" "#3b82f6" "water");
    (90%N, mk "Wetland" "#06b6d4" "water");
    (95%N, mk "Mangroves" "#059669" "forest");
    (100%N, mk "Moss/Lichen" "#65a30d" "forest") ].

(** [LANDCOVER_CLASSES[code]] *)
Fixpoint lookup (table : list (N * LandcoverClass.t)) (code : N)
  : option LandcoverClass.t :=
  match table with
  | [] => None
  | (k, c) :: rest => if (k =? code)%N then Some c else lookup rest code
  end.

Definition badge (s c e : string) : Badge.t :=
  {| Badge.status := s; Badge.class := c; Badge.emoji := e |}.

Definition getNDVIStatus (ndvi : float) : Badge.t :=
  if (0.6 <=? ndvi)%float then badge "Excellent" "ndvi-healthy" "🌿"
  else if (0.4 <=? ndvi)%float then badge "Good" "ndvi-healthy" "🌱"
  else if (0.2 <=? ndvi)%float then badge "Moderate" "ndvi-moderate" "🌾"
  else badge "Poor" "ndvi-poor" "🏜️".

(** [rainfall.reduce((sum, d) => sum + (d.rain || 0), 0)] *)
Definition sumRain (rainfall : list Api.RainEntry) : float :=
  fold_left (fun sum d => (sum + JS.or_num (Api.rain d) 0)%float)
            rainfall 0%float.

(** The value of [droughtData && droughtData.status] when it is truthy. *)
Definition backendStatus (droughtData : option Api.Drought) : option string :=
  match droughtData with
  | Some d =>
      match Api.status d with
      | Some status => if JS.truthy_str status then Some status else None
      | None => None
      end
  | None => None
  end.

Definition getDroughtStatus (rainfall : option (list Api.RainEntry))
  (droughtData : option Api.Drought) : Badge.t :=
  match backendStatus droughtData with
  | Some status =>
      (* Use drought data from backend if available *)
      if (status =? "Normal")%string then
        badge "No Drought" "status-healthy" "💧"
      else if (status =? "Mild Drought")%string then
        badge "Mild Drought" "status-warning" "⚠️"
      else if (status =? "Moderate Drought")%string then
        badge "Moderate" "status-warning" "⚠️"
      else badge status "status-critical" "🔥"
  | None =>
      match rainfall with
      | None | Some [] => badge "Unknown" "status-warning" "❓"
      | Some rainfall =>
          let avgRain := (sumRain rainfall / JS.of_nat (List.length rainfall))%float in
          if (5 <=? avgRain)%float then
            badge "No Drought" "status-healthy" "💧"
          else if (2 <=? avgRain)%float then
            badge "Mild Drought" "status-warning" "⚠️"
          else badge "Severe Drought" "status-critical" "🔥"
      end
  end.

(** The text of the "Total Rain (mm)" card: a [toFixed(1)] string or
    ['N/A']. *)
Inductive RainTotal : Type :=
| RainMm (text : JS.Fixed)
| RainNA.

(** The body of [ResultsPanel] once [results] is known to be there. *)
Section Results.
Variable results : Api.AnalysisResult.

Definition ndviValue : float := JS.or_num (Api.ndvi results) 0.
Definition ndviStatus : Badge.t := getNDVIStatus ndviValue.

(** [results.rainfall?.features || []] *)
Definition rainfallData : list Api.RainEntry :=
  match Api.rainfall results with
  | Some r => match Api.features r with Some l => l | None => [] end
  | None => []
  end.

(** [results.rainfall?.statistics || {}] *)
Definition rainfallStats : Api.Statistics :=
  match Api.rainfall results with
  | Some r =>
      match Api.statistics r with
      | Some s => s
      | None => {| Api.total_rainfall := None |}
      end
  | None => {| Api.total_rainfall := None |}
  end.

(** [results.drought || {}] *)
Definition droughtData : Api.Drought :=
  match Api.drought results with
  | Some d => d
  | None => {| Api.status := None |}
  end.

Definition droughtStatus : Badge.t :=
  getDroughtStatus (Some rainfallData) (Some droughtData).

(** [results.landcover || {}] *)
Definition landcover : Api.Landcover :=
  match Api.landcover results with Some l => l | None => [] end.

Definition yieldPrediction : float := JS.or_num (Api.yield_prediction results) 0.

(* Process landcover data *)
Definition totalPixels : float :=
  fold_left (fun sum val => (sum + val)%float) (map snd landcover) 0%float.

Definition landcoverEntry (entry : N * float) : Stat.t :=
  let '(code, count) := entry in
  let known := lookup LANDCOVER_CLASSES code in
  {| Stat.code := code;
     Stat.name :=
       JS.or_str (option_map LandcoverClass.name known)
                 ("Class " ++ JS.digits_of code);
     Stat.color := JS.or_str (option_map LandcoverClass.color known) "#64748b";
     Stat.cssClass := JS.or_str (option_map LandcoverClass.class known) "urban";
     Stat.percent :=
       if (0 <? totalPixels)%float
       then PercentText (JS.toFixed ((count / totalPixels) * 100)%float 1)
       else PercentZero |}.

(** [ToNumber] of a [percent], as the subtraction in the comparator needs. *)
Definition percentNumber (p : Percent) : float :=
  match p with
  | PercentText s => JS.Number s
  | PercentZero => 0%float
  end.

(** [(a, b) => b.percent - a.percent] *)
Definition byPercentDesc (a b : Stat.t) : float :=
  (percentNumber (Stat.percent b) - percentNumber (Stat.percent a))%float.

Definition landcoverStats : list Stat.t :=
  firstn 5 (JS.sort byPercentDesc (map landcoverEntry landcover)).

Definition rainTotal : RainTotal :=
  let otherwise :=
    if (0 <? List.length rainfallData)%nat
    then RainMm (JS.toFixed (sumRain rainfallData) 1)
    else RainNA in
  match Api.total_rainfall rainfallStats with
  | Some total_rainfall =>
      if JS.truthy total_rainfall
      then RainMm (JS.toFixed total_rainfall 1)
      else otherwise
  | None => otherwise
  end.

End Results.

(** What the panel shows: the error card, the empty state, or the report
    with the values computed above. *)
Record Report : Type :=
  { vegetation : Badge.t;
    droughtBadge : Badge.t;
    breakdown : list Stat.t;
    totalRain : RainTotal }.

Inductive View : Type :=
| ErrorCard (message : string)
| NoAnalysisYet
| Shown (report : Report).

Definition ResultsPanel (results : option Api.AnalysisResult)
  (isLoading : bool) (error : option string) : View :=
  let panel :=
    match results with
    | None => NoAnalysisYet
    | Some r =>
        Shown {| vegetation := ndviStatus r;
                 droughtBadge := droughtStatus r;
                 breakdown := landcoverStats r;
                 totalRain := rainTotal r |}
    end in
  match error with
  | Some message => if JS.truthy_str message then ErrorCard message else panel
  | None => panel
  end.

End ResultsPanel.

(** ** App.jsx *)

Module Axios.

(** A fulfilled [axios.post]: [response.data]. *)
Record Response : Type := { data : option Api.AnalysisResult }.

(** A rejected one: [err.response?.data?.error], with [body] for the [data]
    of the error response. *)
Record ErrorBody : Type := { error : option string }.
Record ErrorResponse : Type := { body : option ErrorBody }.
Record Error : Type := { response : option ErrorResponse }.

Inductive Outcome : Type :=
| Fulfilled (r : Response)
| Rejected (err : Error).

End Axios.

Module App.

Record LatLng : Type := { lat : float; lng : float }.

Definition defaultCenter : LatLng :=
  {| lat := 20.5937; lng := 78.9629 |}.

(** [drawMode]: [null], ['circle'] or ['polygon']. *)
Module DrawMode.
Inductive t : Type := circle | polygon.
End DrawMode.

(** A [google.maps.Polygon] drawn with the drawing manager. *)
Record Overlay : Type := { getPath : list LatLng }.

(** The body of the [/analyze] request. *)
Record Geometry : Type :=
  { type : string; coordinates : list (list (float * float)) }.

(** What a handler does to the outside world.  The [url] of a request is
    the path it asks for at the service; the address of the service before
    it, [import.meta.env.VITE_BACKEND_URL], is a constant of the build. *)
Inductive Effect : Type :=
| SetMapNull (poly : Overlay)
| Post (url : string) (geometry : Geometry) (timeout : Z)
| ConsoleError (what : string).

(** The [useState] cells of [App] ([mapRef], which nothing reads, is left
    out). *)
Record State : Type :=
  { userLocation : option LatLng;
    mapCenter : LatLng;
    polygon : option Overlay;
    polygonPath : list LatLng;
    circleCenter : option LatLng;
    circleRadius : float;
    drawMode : option DrawMode.t;
    showDrawOptions : bool;
    isLoading : bool;
    analysisResults : option Api.AnalysisResult;
    error : option string }.

Definition initialState : State :=
  {| userLocation := None;
     mapCenter := defaultCenter;
     polygon := None;
     polygonPath := [];
     circleCenter := None;
     circleRadius := 250;
     drawMode := None;
     showDrawOptions := false;
     isLoading := false;
     analysisResults := None;
     error := None |}.

Definition setPolygon (v : option Overlay) (s : State) : State :=
  {| userLocation := userLocation s; mapCenter := mapCenter s;
     polygon := v; polygonPath := polygonPath s;
     circleCenter := circleCenter s; circleRadius := circleRadius s;
     drawMode := drawMode s; showDrawOptions := showDrawOptions s;
     isLoading := isLoading s; analysisResults := analysisResults s;
     error := error s |}.

Definition setPolygonPath (v : list LatLng) (s : State) : State :=
  {| userLocation := userLocation s; mapCenter := mapCenter s;
     polygon := polygon s; polygonPath := v;
     circleCenter := circleCenter s; circleRadius := circleRadius s;
     drawMode := drawMode s; showDrawOptions := showDrawOptions s;
     isLoading := isLoading s; analysisResults := analysisResults s;
     error := error s |}.

Definition setCircleCenter (v : option LatLng) (s : State) : State :=
  {| userLocation := userLocation s; mapCenter := mapCenter s;
     polygon := polygon s; polygonPath := polygonPath s;
     circleCenter := v; circleRadius := circleRadius s;
     drawMode := drawMode s; showDrawOptions := showDrawOptions s;
     isLoading := isLoading s; analysisResults := analysisResults s;
     error := error s |}.

Definition setCircleRadius (v : float) (s : State) : State :=
  {| userLocation := userLocation s; mapCenter := mapCenter s;
     polygon := polygon s; polygonPath := polygonPath s;
     circleCenter := circleCenter s; circleRadius := v;
     drawMode := drawMode s; showDrawOptions := showDrawOptions s;
     isLoading := isLoading s; analysisResults := analysisResults s;
     error := error s |}.

Definition setDrawMode (v : option DrawMode.t) (s : State) : State :=
  {| userLocation := userLocation s; mapCenter := mapCenter s;
     polygon := polygon s; polygonPath := polygonPath s;
     circleCenter := circleCenter s; circleRadius := circleRadius s;
     drawMode := v; showDrawOptions := showDrawOptions s;
     isLoading := isLoading s; analysisResults := analysisResults s;
     error := error s |}.

Definition setShowDrawOptions (v : bool) (s : State) : State :=
  {| userLocation := userLocation s; mapCenter := mapCenter s;
     polygon := polygon s; polygonPath := polygonPath s;
     circleCenter := circleCenter s; circleRadius := circleRadius s;
     drawMode := drawMode s; showDrawOptions := v;
     isLoading := isLoading s; analysisResults := analysisResults s;
     error := error s |}.

Definition setIsLoading (v : bool) (s : State) : State :=
  {| userLocation := userLocation s; mapCenter := mapCenter s;
     polygon := polygon s; polygonPath := polygonPath s;
     circleCenter := circleCenter s; circleRadius := circleRadius s;
     drawMode := drawMode s; showDrawOptions := showDrawOptions s;
     isLoading := v; analysisResults := analysisResults s;
     error := error s |}.

Definition setAnalysisResults (v : option Api.AnalysisResult) (s : State)
  : State :=
  {| userLocation := userLocation s; mapCenter := mapCenter s;
     polygon := polygon s; polygonPath := polygonPath s;
     circleCenter := circleCenter s; circleRadius := circleRadius s;
     drawMode := drawMode s; showDrawOptions := showDrawOptions s;
     isLoading := isLoading s; analysisResults := v;
     error := error s |}.

Definition setError (v : option string) (s : State) : State :=
  {| userLocation := userLocation s; mapCenter := mapCenter s;
     polygon := polygon s; polygonPath := polygonPath s;
     circleCenter := circleCenter s; circleRadius := circleRadius s;
     drawMode := drawMode s; showDrawOptions := showDrawOptions s;
     isLoading := isLoading s; analysisResults := analysisResults s;
     error := v |}.

Definition setUserLocation (v : option LatLng) (s : State) : State :=
  {| userLocation := v; mapCenter := mapCenter s;
     polygon := polygon s; polygonPath := polygonPath s;
     circleCenter := circleCenter s; circleRadius := circleRadius s;
     drawMode := drawMode s; showDrawOptions := showDrawOptions s;
     isLoading := isLoading s; analysisResults := analysisResults s;
     error := error s |}.

Definition setMapCenter (v : LatLng) (s : State) : State :=
  {| userLocation := userLocation s; mapCenter := v;
     polygon := polygon s; polygonPath := polygonPath s;
     circleCenter := circleCenter s; circleRadius := circleRadius s;
     drawMode := drawMode s; showDrawOptions := showDrawOptions s;
     isLoading := isLoading s; analysisResults := analysisResults s;
     error := error s |}.

Definition quote : string := String (Ascii.ascii_of_nat 34) EmptyString.

(** What [navigator.geolocation] does with the request of
    [handleEnableLocation]: it is missing, or it calls back with a position
    or with an error. *)
Inductive Geolocation : Type :=
| NotSupported
| Position (location : LatLng)
| PositionError.

Definition handleEnableLocation (geolocation : Geolocation) (s : State)
  : State * list Effect :=
  match geolocation with
  | Position location =>
      let s := setUserLocation (Some location) s in
      let s := setMapCenter location s in
      (s, [])
  | PositionError =>
      (setError
         (Some "Unable to get your location. Please enable location services.")
         s, [ConsoleError "Error getting location:"])
  | NotSupported =>
      (setError (Some "Geolocation is not supported by your browser.") s, [])
  end.

Section Handlers.
Variable Math : JS.MathObject.

(** One turn of the loop of [circleToPolygon]: the point pushed for [i]. *)
Definition circlePoint (center : LatLng) (radius : float) (numPoints i : nat)
  : LatLng :=
  let angle := ((JS.of_nat i / JS.of_nat numPoints) * 2 * JS.PI)%float in
  let lat' :=
    (lat center + (radius / 111320) * JS.cos Math angle)%float in
  let lng' :=
    (lng center +
     (radius / (111320 * JS.cos Math (lat center * JS.PI / 180)))
     * JS.sin Math angle)%float in
  {| lat := lat'; lng := lng' |}.

(** [for (let i = 0; i < numPoints; i++) { ... points.push({ lat, lng }) }],
    with [todo = numPoints - i] turns left. *)
Fixpoint circleLoop (center : LatLng) (radius : float) (numPoints : nat)
  (todo i : nat) (points : list LatLng) : list LatLng :=
  match todo with
  | O => points
  | S todo' =>
      circleLoop center radius numPoints todo' (S i)
                 (points ++ [circlePoint center radius numPoints i])
  end.

(* Generate polygon points from circle *)
Definition circleToPolygon (center : LatLng) (radius : float)
  (numPoints : nat) : list LatLng :=
  circleLoop center radius numPoints numPoints 0 [].

(* Quick circle selection - click on map to place *)
Definition handleMapClick (clickedLocation : LatLng) (s : State)
  : State * list Effect :=
  match drawMode s with
  | Some DrawMode.circle =>
      let s := setCircleCenter (Some clickedLocation) s in
      let polygonPoints :=
        circleToPolygon clickedLocation (circleRadius s) 32 in
      let s := setPolygonPath polygonPoints s in
      let s := setDrawMode None s in
      let s := setShowDrawOptions false s in
      (s, [])
  | _ => (s, [])
  end.

(* Use current location as center *)
Definition handleUseMyLocation (s : State) : State * list Effect :=
  match userLocation s with
  | Some location =>
      let s := setCircleCenter (Some location) s in
      let polygonPoints := circleToPolygon location (circleRadius s) 32 in
      let s := setPolygonPath polygonPoints s in
      let s := setDrawMode None s in
      let s := setShowDrawOptions false s in
      (s, [])
  | None =>
      (setError
         (Some ("Please enable location first by clicking "
                ++ quote ++ "Enable Location" ++ quote))
         s, [])
  end.

End Handlers.

Definition handlePolygonComplete (poly : Overlay) (s : State)
  : State * list Effect :=
  let s := setPolygon (Some poly) s in
  let path := map (fun latLng => {| lat := lat latLng; lng := lng latLng |})
                  (getPath poly) in
  let s := setPolygonPath path s in
  let s := setDrawMode None s in
  let s := setShowDrawOptions false s in
  (s, []).

(* Cancel drawing and restore default UI *)
Definition handleCancelDrawing (s : State) : State * list Effect :=
  match polygon s with
  | Some poly =>
      let s := setPolygon None s in
      let s := setDrawMode None s in
      let s := setShowDrawOptions false s in
      (s, [SetMapNull poly])
  | None =>
      let s := setDrawMode None s in
      let s := setShowDrawOptions false s in
      (s, [])
  end.

Definition handleClearBoundary (s : State) : State * list Effect :=
  let effects :=
    match polygon s with
    | Some poly => [SetMapNull poly]
    | None => []
    end in
  let s := setPolygon None s in
  let s := setPolygonPath [] s in
  let s := setCircleCenter None s in
  let s := setAnalysisResults None s in
  let s := setDrawMode None s in
  (s, effects).

(** [coordinates.push(coordinates[0])].  On an empty array [coordinates[0]]
    is [undefined]; [handleAnalyze] reaches the call with three pairs or
    more, so that case is left as it is. *)
Definition pushFirst (coordinates : list (float * float))
  : list (float * float) :=
  match coordinates with
  | [] => coordinates
  | first :: _ => (coordinates ++ [first])%list
  end.

Definition genericFailure : string :=
  "Failed to analyze the area. Please try again.".

(** [err.response?.data?.error] *)
Definition serverError (err : Axios.Error) : option string :=
  match Axios.response err with
  | Some r =>
      match Axios.body r with
      | Some b => Axios.error b
      | None => None
      end
  | None => None
  end.

(** [handleAnalyze] up to the [await]: either the guard returns, or the
    request leaves. *)
Definition handleAnalyze_submit (s : State)
  : State * list Effect * option Geometry :=
  if (List.length (polygonPath s) <? 3)%nat then
    (setError (Some "Please select a farm area first.") s, [], None)
  else
    let s := setIsLoading true s in
    let s := setError None s in
    let coordinates :=
      map (fun point => (lng point, lat point)) (polygonPath s) in
    let coordinates := pushFirst coordinates in
    let geometry :=
      {| type := "Polygon"; coordinates := [coordinates] |} in
    (s, [Post "/analyze" geometry 120000], Some geometry).

(** [handleAnalyze] from the [await] on, when the promise settles. *)
Definition handleAnalyze_settle (outcome : Axios.Outcome) (s : State)
  : State * list Effect :=
  match outcome with
  | Axios.Fulfilled response =>
      let s := setAnalysisResults (Axios.data response) s in
      let s := setIsLoading false s in
      (s, [])
  | Axios.Rejected err =>
      let s := setError (Some (JS.or_str (serverError err) genericFailure)) s in
      let s := setIsLoading false s in
      (s, [ConsoleError "Analysis error:"])
  end.

(** [handleAnalyze] run to its end, with nothing else happening while the
    request is away; [backend] is what the service answers. *)
Definition handleAnalyze (backend : Geometry -> Axios.Outcome) (s : State)
  : State * list Effect :=
  match handleAnalyze_submit s with
  | (s', effects, Some geometry) =>
      let '(s'', effects') := handleAnalyze_settle (backend geometry) s' in
      (s'', (effects ++ effects')%list)
  | (s', effects, None) => (s', effects)
  end.

(** [polygonPath.length > 0 || polygon] *)
Definition hasBoundary (s : State) : bool :=
  (0 <? List.length (polygonPath s))%nat
  || match polygon s with Some _ => true | None => false end.

(** The results panel as [App] mounts it. *)
Definition panel (s : State) : ResultsPanel.View :=
  ResultsPanel.ResultsPanel (analysisResults s) (isLoading s) (error s).

End App.

(** ** App.jsx: what [App] renders, and when *)

Module AppJSX.
Import App.

(** The [value] of a radius option: a number of metres, or ['custom']. *)
Inductive RadiusValue : Type :=
| Metres (m : float)
| Custom.

(* Preset radius options in meters *)
Definition RADIUS_OPTIONS : list (string * RadiusValue) :=
  [ ("Small (100m)", Metres 100);
    ("Medium (250m)", Metres 250);
    ("Large (500m)", Metres 500);
    ("XL (1km)", Metres 1000);
    ("Custom", Custom) ].

(** [RADIUS_OPTIONS.filter(r => r.value !== 'custom')], each button with
    the radius its click sets. *)
Definition radiusButtons : list (string * float) :=
  flat_map (fun option =>
              match snd option with
              | Metres m => [(fst option, m)]
              | Custom => []
              end)
           RADIUS_OPTIONS.

Definition isSome {A : Type} (x : option A) : bool :=
  match x with Some _ => true | None => false end.


(** [{drawMode === 'polygon' && <DrawingManager ... />}] *)
Definition drawingManagerShown (s : State) : bool :=
  match drawMode s with Some DrawMode.polygon => true | _ => false end.



(** [{showDrawOptions && !hasBoundary && !drawMode && ...}] *)
Definition drawOptionsShown (s : State) : bool :=
  showDrawOptions s && negb (hasBoundary s) && negb (isSome (drawMode s)).

(** [{userLocation && <button onClick={handleUseMyLocation}>}], inside the
    panel of the draw options. *)
Definition useMyLocationShown (s : State) : bool :=
  drawOptionsShown s && isSome (userLocation s).

(** The drawing instructions, with their Cancel button:
    [{drawMode === 'circle' && ...}] and [{drawMode === 'polygon' && ...}]. *)
Definition instructionsShown (s : State) : bool := isSome (drawMode s).

(** [{!hasBoundary && !drawMode && <button>Select Farm Area</button>}] *)
Definition selectButtonShown (s : State) : bool :=
  negb (hasBoundary s) && negb (isSome (drawMode s)).

(** [{hasBoundary && !drawMode && <>Analyze Farm, Clear Selection</>}] *)
Definition boundaryButtonsShown (s : State) : bool :=
  hasBoundary s && negb (isSome (drawMode s)).

(** The Analyze button can be clicked: it is there, and not
    [disabled={isLoading}]. *)
Definition analyzeEnabled (s : State) : bool :=
  boundaryButtonsShown s && negb (isLoading s).

(** The Dismiss button of the error card of the panel. *)
Definition dismissShown (s : State) : bool :=
  match panel s with ResultsPanel.ErrorCard _ => true | _ => false end.

End AppJSX.

(** ** App.jsx in use: the events of a session

    Each control is wired to its handler as the JSX wires it, and an event
    can happen when its control is rendered.  The browser's answer to a
    location request and the settling of a request are events of their own:
    they arrive whenever they arrive. *)

Module Session.
Import App.

Inductive Event : Type :=
| Located (geolocation : Geolocation)
| MapClick (clickedLocation : LatLng)
| SelectFarmArea
| CloseDrawOptions
| PickRadius (button : nat)
| ClickOnMapToPlace
| UseMyLocation
| StartDrawingPolygon
| PolygonComplete (poly : Overlay)
| CancelDrawing
| AnalyzeFarm
| ClearSelection
| Dismiss
| Settled (request : nat) (outcome : Axios.Outcome).

(** The page, and the requests that have left and not yet settled. *)
Record World : Type := { ui : State; inFlight : list Geometry }.

Definition start : World := {| ui := initialState; inFlight := [] |}.

Definition enabled (w : World) (e : Event) : bool :=
  let s := ui w in
  match e with
  | Located _ => true
  | MapClick _ => true
  | SelectFarmArea => AppJSX.selectButtonShown s
  | CloseDrawOptions => AppJSX.drawOptionsShown s
  | PickRadius button =>
      AppJSX.drawOptionsShown s
      && (button <? List.length AppJSX.radiusButtons)%nat
  | ClickOnMapToPlace => AppJSX.drawOptionsShown s
  | UseMyLocation => AppJSX.useMyLocationShown s
  | StartDrawingPolygon => AppJSX.drawOptionsShown s
  | PolygonComplete _ => AppJSX.drawingManagerShown s
  | CancelDrawing => AppJSX.instructionsShown s
  | AnalyzeFarm => AppJSX.analyzeEnabled s
  | ClearSelection => AppJSX.boundaryButtonsShown s
  | Dismiss => AppJSX.dismissShown s
  | Settled request _ => (request <? List.length (inFlight w))%nat
  end.

(** The requests among the effects of a handler. *)
Definition posted (effects : list Effect) : list Geometry :=
  flat_map (fun effect =>
              match effect with
              | Post _ geometry _ => [geometry]
              | _ => []
              end)
           effects.

Fixpoint without {A : Type} (i : nat) (l : list A) : list A :=
  match l, i with
  | [], _ => []
  | _ :: rest, O => rest
  | x :: rest, S i' => x :: without i' rest
  end.

Section Run.
Variable Math : JS.MathObject.

(** The handler the JSX gives to the control of an event. *)
Definition handler (e : Event) (s : State) : State * list Effect :=
  match e with
  | Located geolocation => handleEnableLocation geolocation s
  | MapClick clickedLocation => handleMapClick Math clickedLocation s
  | SelectFarmArea => (setShowDrawOptions true s, [])
  | CloseDrawOptions => (setShowDrawOptions false s, [])
  | PickRadius button =>
      match nth_error AppJSX.radiusButtons button with
      | Some option => (setCircleRadius (snd option) s, [])
      | None => (s, [])
      end
  | ClickOnMapToPlace => (setDrawMode (Some DrawMode.circle) s, [])
  | UseMyLocation => handleUseMyLocation Math s
  | StartDrawingPolygon => (setDrawMode (Some DrawMode.polygon) s, [])
  | PolygonComplete poly => handlePolygonComplete poly s
  | CancelDrawing => handleCancelDrawing s
  | AnalyzeFarm => let '(s', effects, _) := handleAnalyze_submit s in (s', effects)
  | ClearSelection => handleClearBoundary s
  | Dismiss => (setError None s, [])
  | Settled _ outcome => handleAnalyze_settle outcome s
  end.

Definition fire (e : Event) (w : World) : World :=
  let '(s', effects) := handler e (ui w) in
  let waiting :=
    match e with
    | Settled request _ => without request (inFlight w)
    | _ => inFlight w
    end in
  {| ui := s'; inFlight := (waiting ++ posted effects)%list |}.

Definition run (events : list Event) (w : World) : World :=
  fold_left (fun w e => fire e w) events w.

(** The worlds a session can be in. *)
Inductive reachable : World -> Prop :=
| reachable_start : reachable start
| reachable_fire (w : World) (e : Event) :
    reachable w -> enabled w e = true -> reachable (fire e w).

(** Whether each event of a list can happen when its turn comes. *)
Fixpoint allowed (events : list Event) (w : World) : bool :=
  match events with
  | [] => true
  | e :: rest => enabled w e && allowed rest (fire e w)
  end.

(** What the cells of a session keep between them:
    - while a drawing mode is on, no polygon is drawn and the path is empty;
    - with a circle, no polygon is drawn and the path is that of the circle
      at the radius chosen; without one, the path is that of the polygon
      drawn, or empty when there is none;
    - no request waits while [isLoading] is off, and one does while it is on;
    - the radius is one of the buttons;
    - the map is centred on the user's location once it is known. *)
Definition invariant (w : World) : Prop :=
  let s := ui w in
  (drawMode s <> None -> polygon s = None /\ polygonPath s = []) /\
  match circleCenter s with
  | Some center =>
      polygon s = None /\
      polygonPath s = circleToPolygon Math center (circleRadius s) 32
  | None =>
      match polygon s with
      | Some poly => polygonPath s = getPath poly
      | None => polygonPath s = []
      end
  end /\
  (inFlight w = [] /\ isLoading s = false \/
   exists geometry, inFlight w = [geometry] /\ isLoading s = true) /\
  In (circleRadius s) (map snd AppJSX.radiusButtons) /\
  mapCenter s
  = match userLocation s with Some location => location | None => defaultCenter end.

End Run.

(** A [Math] object to run a session with: the first terms of the series
    of the cosine and the sine. *)
Definition seriesMath : JS.MathObject :=
  {| JS.cos := fun x => (1 - x * x / 2)%float;
     JS.sin := fun x => (x - x * x * x / 6)%float |}.

End Session.

(** ** components/ResultsPanel.jsx: what the report shows beside the badges *)

Module ResultsPanelJSX.
Import ResultsPanel.

Section Results.
Variable results : Api.AnalysisResult.

(* Calculate gauge needle rotation (-90 to 90 degrees based on NDVI 0-1) *)
Definition needleRotation : float := (ndviValue results * 180 - 90)%float.

(** The class of the badge in the panel header. *)
Definition headerBadge : string :=
  if (Badge.class (ndviStatus results) =? "ndvi-healthy")%string
  then "status-healthy"
  else if (Badge.class (ndviStatus results) =? "ndvi-moderate")%string
  then "status-warning"
  else "status-critical".

(** [ndviValue.toFixed(3)] and [yieldPrediction.toFixed(2)] *)
Definition gaugeValue : JS.Fixed := JS.toFixed (ndviValue results) 3.
Definition yieldValue : JS.Fixed := JS.toFixed (yieldPrediction results) 2.

(** [landcoverStats.length > 0 && ...] and [rainfallData.length > 0 && ...] *)
Definition landcoverCardShown : bool :=
  (0 <? List.length (landcoverStats results))%nat.
Definition rainfallCardShown : bool :=
  (0 <? List.length (rainfallData results))%nat.

End Results.

End ResultsPanelJSX.

(** ** components/RainfallChart.jsx *)

Module RainfallChart.

Record Point : Type := { date : string; rainfall : float }.

(** [parseFloat] of a string made by [toFixed]: on these strings it reads
    the number that [Number] reads. *)
Definition parseFloat (s : JS.Fixed) : float := JS.Number s.

(** [item.rain !== null && item.rain !== undefined] *)
Definition hasRain (item : Api.RainEntry) : bool :=
  match Api.rain item with Some _ => true | None => false end.

Section Chart.
(** [new Date(d).toLocaleDateString('en-US', { month: 'short', day:
    'numeric' })], which is the engine's. *)
Variable toLocaleDateString : string -> string.

(** The point made of one item.  ([parseFloat(undefined)] is [NaN], which
    [|| 0] turns into 0.) *)
Definition toPoint (item : Api.RainEntry) : Point :=
  {| date :=
       match Api.date item with
       | Some d => if JS.truthy_str d then toLocaleDateString d else ""
       | None => ""
       end;
     rainfall :=
       JS.or_num
         (option_map (fun rain => parseFloat (JS.toFixed rain 2))
                     (Api.rain item))
         0 |}.

(* Process data for the chart *)
Definition chartData (data : list Api.RainEntry) : list Point :=
  firstn 30 (map toPoint (filter hasRain data)).

Inductive View : Type :=
| NoRainfallData
| AreaChart (data : list Point).

Definition RainfallChart (data : list Api.RainEntry) : View :=
  if (List.length (chartData data) =? 0)%nat then NoRainfallData
  else AreaChart (chartData data).

End Chart.

End RainfallChart.

(** ** components/PollenCard.jsx *)

Module PollenCard.

Record PollenType : Type :=
  { type : string; level : float; category : string }.

Record Day : Type :=
  { date : string; pollen_types : option (list PollenType) }.

Definition getLevelColor (level : float) : string :=
  if (level <=? 1)%float then "#22c55e"
  else if (level <=? 2)%float then "#84cc16"
  else if (level <=? 3)%float then "#eab308"
  else if (level <=? 4)%float then "#f59e0b"
  else "#ef4444".

(** [day.pollen_types ? day.pollen_types.reduce((sum, p) => sum + p.level,
    0) / day.pollen_types.length : 0]; an array is truthy, also when it is
    empty. *)
Definition avgLevel (day : Day) : float :=
  match pollen_types day with
  | Some types =>
      (fold_left (fun sum p => (sum + level p)%float) types 0%float
       / JS.of_nat (List.length types))%float
  | None => 0%float
  end.

(** The colors of the dots of the trend, [daily_forecast.slice(0, 5).map(...)],
    and whether the trend is there, [daily_forecast &&
    daily_forecast.length > 1]. *)
Definition trendDots (daily_forecast : list Day) : list string :=
  map (fun day => getLevelColor (avgLevel day)) (firstn 5 daily_forecast).

Definition trendShown (daily_forecast : option (list Day)) : bool :=
  match daily_forecast with
  | Some days => (1 <? List.length days)%nat
  | None => false
  end.

End PollenCard.

(** ** components/SolarCard.jsx *)

Module SolarCard.

Definition getScoreColor (score : float) : string :=
  if (80 <=? score)%float then "#f59e0b"
  else if (60 <=? score)%float then "#eab308"
  else if (40 <=? score)%float then "#84cc16"
  else "#64748b".

End SolarCard.

(** ** The vocabulary of the specification

    The specification names the outcomes of the two classifications; each
    is the badge the source returns for it.  It also names three fields of
    the result by their path. *)

Module Vegetation.
Import ResultsPanel.
Definition Excellent : Badge.t := badge "Excellent" "ndvi-healthy" "🌿".
Definition Good : Badge.t := badge "Good" "ndvi-healthy" "🌱".
Definition Moderate : Badge.t := badge "Moderate" "ndvi-moderate" "🌾".
Definition Poor : Badge.t := badge "Poor" "ndvi-poor" "🏜️".
End Vegetation.

Module DroughtClass.
Import ResultsPanel.
Definition NoDrought : Badge.t := badge "No Drought" "status-healthy" "💧".
Definition MildDrought : Badge.t := badge "Mild Drought" "status-warning" "⚠️".
Definition Moderate : Badge.t := badge "Moderate" "status-warning" "⚠️".
(** The most severe class keeps the text it was given. *)
Definition SevereOrWorse (text : string) : Badge.t :=
  badge text "status-critical" "🔥".
Definition Unknown : Badge.t := badge "Unknown" "status-warning" "❓".
End DroughtClass.

Module Field.

(** [drought.status] *)
Definition droughtStatus (r : Api.AnalysisResult) : option string :=
  match Api.drought r with Some d => Api.status d | None => None end.

(** [rainfall.statistics.totalRainfall] *)
Definition totalRainfall (r : Api.AnalysisResult) : option float :=
  match Api.rainfall r with
  | Some rf =>
      match Api.statistics rf with
      | Some st => Api.total_rainfall st
      | None => None
      end
  | None => None
  end.

(** The rainfall series. *)
Definition series (r : Api.AnalysisResult) : option (list Api.RainEntry) :=
  match Api.rainfall r with Some rf => Api.features rf | None => None end.

(** A result with the given sections and nothing else. *)
Definition result (ndvi : option float) (rainfall : option Api.Rainfall)
  (drought : option Api.Drought) (landcover : option Api.Landcover)
  : Api.AnalysisResult :=
  {| Api.ndvi := ndvi; Api.rainfall := rainfall; Api.drought := drought;
     Api.landcover := landcover; Api.yield_prediction := None;
     Api.crop_recommendations := None; Api.weather := None;
     Api.pollen := None; Api.solar := None |}.

Definition rainOf (x : float) : Api.RainEntry :=
  {| Api.date := None; Api.rain := Some x |}.

End Field.

Module Breakdown.

(** The percent of an entry, as a number. *)
Definition percentOf (e : ResultsPanel.Stat.t) : float :=
  ResultsPanel.percentNumber (ResultsPanel.Stat.percent e).

(** [sorted] holds the entries of [entries] in descending order of percent,
    those of equal percent in the order they have in [entries]. *)
Definition stableDescending (entries sorted : list ResultsPanel.Stat.t)
  : Prop :=
  Permutation sorted entries /\
  StronglySorted (JS.not_below percentOf) sorted /\
  forall k : float,
    filter (fun e => (percentOf e =? k)%float) sorted
    = filter (fun e => (percentOf e =? k)%float) entries.

(** A pixel count: a number that is at least zero and not infinite. *)
Definition isCount (c : float) : Prop :=
  (0 <=? c)%float = true /\ (c <? infinity)%float = true.

End Breakdown.

(** The rainfall total as claim C1 words it: the statistics' total whenever
    it is present, else the sum over the series whenever there is a series,
    else unavailable. *)
Module Claimed.

Definition rainTotal (r : Api.AnalysisResult) : ResultsPanel.RainTotal :=
  match Field.totalRainfall r with
  | Some total => ResultsPanel.RainMm (JS.toFixed total 1)
  | None =>
      match Field.series r with
      | Some l => ResultsPanel.RainMm (JS.toFixed (ResultsPanel.sumRain l) 1)
      | None => ResultsPanel.RainNA
      end
  end.

End Claimed.

(** The conclusion of claim C10 as it is worded, "a result cannot outlive
    the boundary it was computed from", read on the cells of the page: where
    a result is stored, a boundary is selected. *)
Module ClaimedClear.


End ClaimedClear.

(** * Facts about binary64 numbers

    The Standard Library specifies the primitive operations bit by bit
    ([SpecFloat]); what the proofs below need of them is their order. *)

(** A mantissa of [d] bits lies in [[2^(d-1), 2^d)]. *)
Lemma digits2_pos_bounds (m : positive) :
  (2 ^ (Z.pos (digits2_pos m) - 1) <= Z.pos m < 2 ^ Z.pos (digits2_pos m))%Z.
Proof.
  induction m as [p IH | p IH | ]; cbn [digits2_pos].
  - rewrite Pos2Z.inj_succ.
    replace (Z.succ (Z.pos (digits2_pos p)) - 1)%Z
      with (Z.succ (Z.pos (digits2_pos p) - 1))%Z by lia.
    rewrite !Z.pow_succ_r by lia. lia.
  - rewrite Pos2Z.inj_succ.
    replace (Z.succ (Z.pos (digits2_pos p)) - 1)%Z
      with (Z.succ (Z.pos (digits2_pos p) - 1))%Z by lia.
    rewrite !Z.pow_succ_r by lia. lia.
  - cbn. lia.
Qed.

(** What it means for a mantissa and an exponent to be those of a binary64
    number: the exponent is in range, the mantissa has at most 53 bits,
    and exactly 53 above the least exponent. *)
Lemma bounded_inv (m : positive) (e : Z) :
  bounded prec emax m e = true ->
  (-1074 <= e <= 971 /\ Z.pos m < 2 ^ 53 /\ (-1074 < e -> 2 ^ 52 <= Z.pos m))%Z.
Proof.
  unfold bounded, canonical_mantissa, fexp, SpecFloat.emin, prec, emax.
  intros H. apply andb_prop in H. destruct H as [Hc He].
  apply Z.eqb_eq in Hc. apply Z.leb_le in He.
  pose proof (digits2_pos_bounds m) as [Hlo Hhi].
  set (d := Z.pos (digits2_pos m)) in *.
  assert (Hd : (0 < d)%Z) by (subst d; lia).
  split; [lia|]. split.
  - assert (d <= 53)%Z by lia.
    assert (2 ^ d <= 2 ^ 53)%Z by (apply Z.pow_le_mono_r; lia). lia.
  - intros Hgt. assert (d = 53)%Z by lia.
    replace (2 ^ 52)%Z with (2 ^ (d - 1))%Z by (f_equal; lia). exact Hlo.
Qed.

(** Every finite value is short of the place given to the infinities. *)
Lemma scaled_finite_range (m : positive) (e : Z) :
  bounded prec emax m e = true ->
  (0 < Z.pos m * 2 ^ (e + 1074) < 2 ^ 2200)%Z.
Proof.
  intros H. apply bounded_inv in H. destruct H as (He & Hm & _).
  assert (Hp : (0 < 2 ^ (e + 1074))%Z) by (apply Z.pow_pos_nonneg; lia).
  split; [lia|].
  assert (Hq : (2 ^ (e + 1074) <= 2 ^ 2045)%Z) by (apply Z.pow_le_mono_r; lia).
  replace (2 ^ 2200)%Z with (2 ^ 53 * 2 ^ 2147)%Z
    by (rewrite <- Z.pow_add_r by lia; reflexivity).
  assert (Hr : (2 ^ 2045 < 2 ^ 2147)%Z) by (apply Z.pow_lt_mono_r; lia).
  nia.
Qed.

(** Comparing exponents first and mantissas next, as [SFcompare] does, is
    comparing values. *)
Lemma lex_compare_scaled (m1 m2 : positive) (e1 e2 : Z) :
  bounded prec emax m1 e1 = true ->
  bounded prec emax m2 e2 = true ->
  match (e1 ?= e2)%Z with
  | Lt => Lt
  | Gt => Gt
  | Eq => Pos.compare_cont Eq m1 m2
  end = (Z.pos m1 * 2 ^ (e1 + 1074) ?= Z.pos m2 * 2 ^ (e2 + 1074))%Z.
Proof.
  intros H1 H2.
  apply bounded_inv in H1. destruct H1 as (He1 & Hm1 & Hn1).
  apply bounded_inv in H2. destruct H2 as (He2 & Hm2 & Hn2).
  assert (Hstep : forall ma mb ea eb : Z,
             (-1074 <= ea)%Z -> (ea < eb)%Z -> (0 < ma < 2 ^ 53)%Z ->
             (2 ^ 52 <= mb)%Z ->
             (ma * 2 ^ (ea + 1074) < mb * 2 ^ (eb + 1074))%Z).
  { intros ma mb ea eb Ha Hab Hma Hmb.
    assert (Hp : (0 < 2 ^ (ea + 1074))%Z) by (apply Z.pow_pos_nonneg; lia).
    assert (Hq : (2 ^ (ea + 1075) <= 2 ^ (eb + 1074))%Z)
      by (apply Z.pow_le_mono_r; lia).
    replace (ea + 1075)%Z with (Z.succ (ea + 1074)) in Hq by lia.
    rewrite Z.pow_succ_r in Hq by lia.
    change (2 ^ 53)%Z with (2 * 2 ^ 52)%Z in Hma.
    assert (0 < 2 ^ 52)%Z by (apply Z.pow_pos_nonneg; lia).
    nia. }
  destruct (Z.compare_spec e1 e2) as [Heq | Hlt | Hgt].
  - subst e2.
    assert (Hp : (0 < 2 ^ (e1 + 1074))%Z) by (apply Z.pow_pos_nonneg; lia).
    rewrite <- Zmult_compare_compat_r by lia. reflexivity.
  - symmetry. apply Z.compare_lt_iff. apply Hstep; lia.
  - symmetry. apply Z.compare_gt_iff. apply Hstep; lia.
Qed.

(** The comparison of the specification is the comparison of values. *)
Lemma SFcompare_scaled (x y : spec_float) :
  valid_binary x = true -> valid_binary y = true ->
  JS.is_nan_sf x = false -> JS.is_nan_sf y = false ->
  SFcompare x y = Some (JS.scaled x ?= JS.scaled y)%Z.
Proof.
  intros Vx Vy Nx Ny.
  destruct x as [sx | sx | | sx mx ex]; try discriminate Nx;
    destruct y as [sy | sy | | sy my ey]; try discriminate Ny;
    cbn [SFcompare JS.scaled valid_binary] in *;
    try (pose proof (scaled_finite_range _ _ Vx) as Rx);
    try (pose proof (scaled_finite_range _ _ Vy) as Ry);
    try (assert (HB : (0 < 2 ^ 2200)%Z) by (apply Z.pow_pos_nonneg; lia));
    try set (B := (2 ^ 2200)%Z) in *;
    try set (vx := (Z.pos mx * 2 ^ (ex + 1074))%Z) in *;
    try set (vy := (Z.pos my * 2 ^ (ey + 1074))%Z) in *.
  all: try (destruct sx; destruct sy; cbn [cond_Zopp]; f_equal; symmetry;
            first [ apply Z.compare_eq_iff; lia
                  | apply Z.compare_lt_iff; lia
                  | apply Z.compare_gt_iff; lia ]).
  all: try (destruct sx; cbn [cond_Zopp]; f_equal; symmetry;
            first [ apply Z.compare_eq_iff; lia
                  | apply Z.compare_lt_iff; lia
                  | apply Z.compare_gt_iff; lia ]).
  all: try (destruct sy; cbn [cond_Zopp]; f_equal; symmetry;
            first [ apply Z.compare_eq_iff; lia
                  | apply Z.compare_lt_iff; lia
                  | apply Z.compare_gt_iff; lia ]).
  all: try (f_equal; symmetry; apply Z.compare_eq_iff; lia).
  (* finite against finite *)
  f_equal. subst vx vy.
  destruct sx, sy; cbn [cond_Zopp].
  - rewrite Z.compare_opp.
    rewrite <- (lex_compare_scaled my mx ey ex Vy Vx).
    rewrite (Z.compare_antisym ey ex).
    destruct (ey ?= ex)%Z; cbn [CompOpp]; try reflexivity.
    rewrite Pos.compare_cont_antisym. reflexivity.
  - symmetry. apply Z.compare_lt_iff. lia.
  - symmetry. apply Z.compare_gt_iff. lia.
  - apply lex_compare_scaled; assumption.
Qed.

Lemma is_nan_Prim2SF (x : float) :
  is_nan x = JS.is_nan_sf (Prim2SF x).
Proof.
  unfold is_nan. rewrite eqb_spec. unfold SFeqb.
  destruct (JS.is_nan_sf (Prim2SF x)) eqn:N.
  - destruct (Prim2SF x); try discriminate N. reflexivity.
  - rewrite (SFcompare_scaled _ _ (Prim2SF_valid x) (Prim2SF_valid x) N N).
    rewrite Z.compare_refl. reflexivity.
Qed.

(** The three comparisons of two numbers, read on their values. *)
Lemma compare_value (x y : float) :
  (is_nan x || is_nan y = true /\
   (x <? y)%float = false /\ (x <=? y)%float = false /\
   (x =? y)%float = false)
  \/
  (is_nan x = false /\ is_nan y = false /\
   (x <? y)%float = (JS.value x <? JS.value y)%Z /\
   (x <=? y)%float = (JS.value x <=? JS.value y)%Z /\
   (x =? y)%float = (JS.value x =? JS.value y)%Z).
Proof.
  rewrite ltb_spec, leb_spec, eqb_spec, !is_nan_Prim2SF.
  unfold SFltb, SFleb, SFeqb, JS.value.
  destruct (JS.is_nan_sf (Prim2SF x)) eqn:Nx.
  - left. destruct (Prim2SF x); try discriminate Nx. cbn. auto.
  - destruct (JS.is_nan_sf (Prim2SF y)) eqn:Ny.
    + left. destruct (Prim2SF y); try discriminate Ny.
      destruct (Prim2SF x); cbn; auto.
    + right.
      rewrite (SFcompare_scaled _ _ (Prim2SF_valid x) (Prim2SF_valid y) Nx Ny).
      destruct (Z.compare_spec (JS.scaled (Prim2SF x)) (JS.scaled (Prim2SF y)));
        repeat split; symmetry;
        first [ apply Z.ltb_lt; lia | apply Z.ltb_ge; lia
              | apply Z.leb_le; lia | apply Z.leb_gt; lia
              | apply Z.eqb_eq; lia | apply Z.eqb_neq; lia ].
Qed.

(** *** Rounding keeps what is positive positive *)

(** Shifting a mantissa right is dividing it by a power of two. *)
Lemma shr_1_div2 (r : shr_record) :
  (0 <= shr_m r)%Z -> shr_m (shr_1 r) = (shr_m r / 2)%Z.
Proof.
  destruct r as [m r s]. cbn [shr_m shr_1]. intros H.
  destruct m as [ | [p | p | ] | p ]; cbn [shr_m]; try lia;
    rewrite <- Z.div2_div; reflexivity.
Qed.

Lemma shr_iter_div (p : positive) :
  forall r : shr_record,
    (0 <= shr_m r)%Z ->
    shr_m (iter_pos shr_1 p r) = (shr_m r / 2 ^ Z.pos p)%Z.
Proof.
  induction p as [p IH | p IH | ]; intros r Hr; cbn [iter_pos].
  - assert (H1 : (0 <= shr_m (shr_1 r))%Z)
      by (rewrite shr_1_div2 by exact Hr; apply Z.div_pos; lia).
    assert (H2 : (0 <= shr_m (iter_pos shr_1 p (shr_1 r)))%Z)
      by (rewrite IH by exact H1; apply Z.div_pos; [lia | apply Z.pow_pos_nonneg; lia]).
    rewrite (IH _ H2), (IH _ H1), shr_1_div2 by exact Hr.
    rewrite !Z.div_div by (try apply Z.pow_pos_nonneg; lia).
    f_equal. rewrite <- Z.pow_add_r by lia.
    rewrite <- (Z.pow_succ_r 2) by lia. f_equal. lia.
  - assert (H1 : (0 <= shr_m (iter_pos shr_1 p r))%Z)
      by (rewrite IH by exact Hr; apply Z.div_pos; [lia | apply Z.pow_pos_nonneg; lia]).
    rewrite (IH _ H1), (IH _ Hr).
    rewrite !Z.div_div by (try apply Z.pow_pos_nonneg; lia).
    f_equal. rewrite <- Z.pow_add_r by lia. f_equal. lia.
  - rewrite shr_1_div2 by exact Hr. reflexivity.
Qed.

Lemma shr_record_of_loc_m (m : Z) (l : location) :
  shr_m (shr_record_of_loc m l) = m.
Proof. destruct l as [ | [ | | ] ]; reflexivity. Qed.

Lemma shr_fexp_positive (m e : Z) (l : location) :
  (0 < m)%Z -> (-1074 <= e)%Z ->
  (0 < shr_m (fst (shr_fexp prec emax m e l)))%Z /\
  (-1074 <= snd (shr_fexp prec emax m e l))%Z.
Proof.
  intros Hm He. unfold shr_fexp, shr.
  destruct m as [ | m | m ]; try lia. cbn [Zdigits2].
  pose proof (digits2_pos_bounds m) as [Hlo _].
  set (d := Z.pos (digits2_pos m)) in *.
  assert (Hd : (0 < d)%Z) by (subst d; lia).
  unfold fexp, SpecFloat.emin, prec, emax.
  destruct (Z.max (d + e - 53) (3 - 1024 - 53) - e)%Z as [ | p | p ] eqn:Hs;
    cbn [fst snd]; rewrite ?shr_record_of_loc_m; try lia.
  rewrite shr_iter_div by (rewrite shr_record_of_loc_m; lia).
  rewrite shr_record_of_loc_m. split; [|lia].
  assert (Hp : (Z.pos p <= d - 1)%Z) by lia.
  assert (H2 : (2 ^ Z.pos p <= 2 ^ (d - 1))%Z) by (apply Z.pow_le_mono_r; lia).
  assert (H3 : (0 < 2 ^ Z.pos p)%Z) by (apply Z.pow_pos_nonneg; lia).
  apply Z.div_str_pos. lia.
Qed.

Lemma round_nearest_even_ge (m : Z) (l : location) :
  (m <= round_nearest_even m l)%Z.
Proof.
  destruct l as [ | [ | | ] ]; cbn [round_nearest_even]; try lia.
  destruct (Z.even m); lia.
Qed.

(** Rounding a positive integer times a power of two that is not below the
    least exponent gives a finite number or an infinity of the same sign:
    the result is neither zero nor [NaN]. *)
Lemma binary_round_aux_positive (sx : bool) (m e : Z) (l : location) :
  (0 < m)%Z -> (-1074 <= e)%Z ->
  binary_round_aux prec emax sx m e l = S754_infinity sx
  \/ exists m' e', binary_round_aux prec emax sx m e l = S754_finite sx m' e'.
Proof.
  intros Hm He. unfold binary_round_aux.
  pose proof (shr_fexp_positive m e l Hm He) as [H1 H2].
  destruct (shr_fexp prec emax m e l) as [r1 e1]. cbn [fst snd] in H1, H2.
  pose proof (round_nearest_even_ge (shr_m r1) (loc_of_shr_record r1)) as Hr.
  set (m1 := round_nearest_even (shr_m r1) (loc_of_shr_record r1)) in *.
  assert (Hm1 : (0 < m1)%Z) by lia.
  pose proof (shr_fexp_positive m1 e1 loc_Exact Hm1 H2) as [H3 _].
  destruct (shr_fexp prec emax m1 e1 loc_Exact) as [r2 e2]. cbn [fst] in H3.
  destruct (shr_m r2) as [ | q | q ]; try lia.
  destruct (e2 <=? emax - prec)%Z; [right; eauto | left; reflexivity].
Qed.

(** Whatever is rounded, the result carries the sign it was given. *)
Lemma binary_round_aux_sign (sx : bool) (m e : Z) (l : location) :
  binary_round_aux prec emax sx m e l = S754_zero sx
  \/ binary_round_aux prec emax sx m e l = S754_nan
  \/ binary_round_aux prec emax sx m e l = S754_infinity sx
  \/ exists m' e', binary_round_aux prec emax sx m e l = S754_finite sx m' e'.
Proof.
  unfold binary_round_aux.
  destruct (shr_fexp prec emax m e l) as [r1 e1].
  destruct (shr_fexp prec emax _ e1 loc_Exact) as [r2 e2].
  destruct (shr_m r2) as [ | q | q ].
  - left. reflexivity.
  - destruct (e2 <=? emax - prec)%Z.
    + right. right. right. eauto.
    + right. right. left. reflexivity.
  - right. left. reflexivity.
Qed.

Lemma shl_align_emin (m : positive) (e t : Z) :
  (-1074 <= e)%Z -> (-1074 <= t)%Z -> (-1074 <= snd (shl_align m e t))%Z.
Proof.
  intros He Ht. unfold shl_align. destruct (t - e)%Z; cbn [snd]; lia.
Qed.

(** A rounded integer is above zero exactly when the integer is. *)
Lemma binary_normalize_positive (M e : Z) :
  (-1074 <= e)%Z ->
  SFltb (S754_zero false) (binary_normalize prec emax M e false)
  = (0 <? M)%Z.
Proof.
  intros He. destruct M as [ | m | m ]; cbn [binary_normalize].
  - reflexivity.
  - unfold binary_round.
    assert (Ht : (-1074 <= fexp prec emax (Z.pos (digits2_pos m) + e))%Z)
      by (unfold fexp, SpecFloat.emin, prec, emax; lia).
    pose proof (shl_align_emin m e _ He Ht) as Hz.
    destruct (shl_align m e (fexp prec emax (Z.pos (digits2_pos m) + e)))
      as [mz ez]. cbn [snd] in Hz.
    destruct (binary_round_aux_positive false (Z.pos mz) ez loc_Exact)
      as [-> | (m' & e' & ->)]; try lia; reflexivity.
  - unfold binary_round.
    destruct (shl_align m e (fexp prec emax (Z.pos (digits2_pos m) + e)))
      as [mz ez].
    destruct (binary_round_aux_sign true (Z.pos mz) ez loc_Exact)
      as [-> | [-> | [-> | (m' & e' & ->)]]]; reflexivity.
Qed.

(** Aligning a mantissa to a lower exponent multiplies it by a power of
    two. *)
Lemma shl_align_fst (m : positive) (e t : Z) :
  (t <= e)%Z ->
  Z.pos (fst (shl_align m e t)) = (Z.pos m * 2 ^ (e - t))%Z.
Proof.
  intros Hte. unfold shl_align.
  destruct (t - e)%Z as [ | d | d ] eqn:Hd; cbn [fst]; try lia.
  - replace (e - t)%Z with 0%Z by lia. lia.
  - replace (e - t)%Z with (Z.pos d) by lia.
    change (Pos.iter xO m d) with (shift_pos d m).
    rewrite shift_pos_correct. rewrite Zpower_pos_nat, Zpower_nat_Z.
    rewrite positive_nat_Z. lia.
Qed.

(** The sign of a difference tells the order: [y - x] is above zero exactly
    when [x] is below [y].  (A difference of two different numbers never
    rounds to zero.) *)
Lemma SFsub_positive (X Y : spec_float) :
  valid_binary X = true -> valid_binary Y = true ->
  SFltb (S754_zero false) (SF64sub Y X) = SFltb X Y.
Proof.
  intros VX VY.
  destruct (JS.is_nan_sf X) eqn:NX;
    [destruct X; try discriminate NX; destruct Y; reflexivity|].
  destruct (JS.is_nan_sf Y) eqn:NY;
    [destruct Y; try discriminate NY; destruct X; reflexivity|].
  unfold SFltb at 2. rewrite (SFcompare_scaled X Y VX VY NX NY).
  destruct X as [sx | sx | | sx mx ex]; try discriminate NX;
    destruct Y as [sy | sy | | sy my ey]; try discriminate NY;
    try (destruct sx, sy; reflexivity).
  1-4: try (cbn [valid_binary] in VX; pose proof (scaled_finite_range _ _ VX));
    try (cbn [valid_binary] in VY; pose proof (scaled_finite_range _ _ VY));
    assert (0 < 2 ^ 2200)%Z by (apply Z.pow_pos_nonneg; lia);
    cbn [SF64sub SFsub SFltb SFcompare JS.scaled];
    destruct sx, sy; cbn [negb cond_Zopp SFcompare];
    match goal with |- _ = match (?a ?= ?b)%Z with _ => _ end =>
      destruct (Z.compare_spec a b); lia || reflexivity end.
  - (* finite - finite *)
    cbn [valid_binary] in VX, VY.
    pose proof (bounded_inv _ _ VX) as (HeX & _ & _).
    pose proof (bounded_inv _ _ VY) as (HeY & _ & _).
    unfold SF64sub, SFsub.
    fold (SFltb (S754_zero false)
            (binary_normalize prec emax
               (cond_Zopp sy (Z.pos (fst (shl_align my ey (Z.min ey ex)))) -
                cond_Zopp sx (Z.pos (fst (shl_align mx ex (Z.min ey ex)))))
               (Z.min ey ex) false)).
    rewrite binary_normalize_positive by lia.
    rewrite !shl_align_fst by lia.
    cbn [JS.scaled].
    set (z := Z.min ey ex).
    assert (Hc : (0 < 2 ^ (z + 1074))%Z) by (apply Z.pow_pos_nonneg; lia).
    assert (Hx : (2 ^ (ex + 1074) = 2 ^ (ex - z) * 2 ^ (z + 1074))%Z)
      by (rewrite <- Z.pow_add_r by lia; f_equal; lia).
    assert (Hy : (2 ^ (ey + 1074) = 2 ^ (ey - z) * 2 ^ (z + 1074))%Z)
      by (rewrite <- Z.pow_add_r by lia; f_equal; lia).
    rewrite Hx, Hy.
    set (c := (2 ^ (z + 1074))%Z) in *.
    set (a := (Z.pos mx * 2 ^ (ex - z))%Z).
    set (b := (Z.pos my * 2 ^ (ey - z))%Z).
    replace (Z.pos mx * (2 ^ (ex - z) * c))%Z with (a * c)%Z by (subst a; ring).
    replace (Z.pos my * (2 ^ (ey - z) * c))%Z with (b * c)%Z by (subst b; ring).
    assert (Hs : forall s v, (cond_Zopp s (v * c) = cond_Zopp s v * c)%Z)
      by (intros [] v; cbn [cond_Zopp]; ring).
    rewrite !Hs.
    set (a' := cond_Zopp sx a). set (b' := cond_Zopp sy b).
    destruct (Z.compare_spec (a' * c) (b' * c));
      [apply Z.ltb_ge | apply Z.ltb_lt | apply Z.ltb_ge]; nia.
Qed.

Lemma sub_positive (x y : float) :
  (0 <? y - x)%float = (x <? y)%float.
Proof.
  rewrite !ltb_spec, sub_spec.
  change (Prim2SF 0) with (S754_zero false).
  apply SFsub_positive; apply Prim2SF_valid.
Qed.

(** The comparisons of two numbers as statements about their values. *)
Lemma ltb_true (x y : float) :
  (x <? y)%float = true <->
  is_nan x = false /\ is_nan y = false /\ (JS.value x < JS.value y)%Z.
Proof.
  destruct (compare_value x y) as [(N & L & _) | (Nx & Ny & L & _)]; rewrite L.
  - split; [discriminate|]. intros (Hx & Hy & _).
    rewrite Hx, Hy in N. discriminate.
  - rewrite Z.ltb_lt. tauto.
Qed.

Lemma leb_true (x y : float) :
  (x <=? y)%float = true <->
  is_nan x = false /\ is_nan y = false /\ (JS.value x <= JS.value y)%Z.
Proof.
  destruct (compare_value x y) as [(N & _ & L & _) | (Nx & Ny & _ & L & _)];
    rewrite L.
  - split; [discriminate|]. intros (Hx & Hy & _).
    rewrite Hx, Hy in N. discriminate.
  - rewrite Z.leb_le. tauto.
Qed.

Lemma eqb_true (x y : float) :
  (x =? y)%float = true <->
  is_nan x = false /\ is_nan y = false /\ JS.value x = JS.value y.
Proof.
  destruct (compare_value x y) as [(N & _ & _ & L) | (Nx & Ny & _ & _ & L)];
    rewrite L.
  - split; [discriminate|]. intros (Hx & Hy & _).
    rewrite Hx, Hy in N. discriminate.
  - rewrite Z.eqb_eq. tauto.
Qed.

Lemma leb_false (x y : float) :
  (x <=? y)%float = false <->
  is_nan x = true \/ is_nan y = true \/ (JS.value y < JS.value x)%Z.
Proof.
  destruct (compare_value x y) as [(N & _ & L & _) | (Nx & Ny & _ & L & _)];
    rewrite L.
  - apply orb_true_iff in N. tauto.
  - rewrite Z.leb_gt, Nx, Ny. intuition discriminate.
Qed.

Lemma ltb_false (x y : float) :
  (x <? y)%float = false <->
  is_nan x = true \/ is_nan y = true \/ (JS.value y <= JS.value x)%Z.
Proof.
  destruct (compare_value x y) as [(N & L & _) | (Nx & Ny & L & _)]; rewrite L.
  - apply orb_true_iff in N. tauto.
  - rewrite Z.ltb_ge, Nx, Ny. intuition discriminate.
Qed.

(** Turns a comparison of two numbers in the context into what it says of
    their values. *)
Ltac read_order H :=
  first [ apply leb_true in H | apply leb_false in H
        | apply ltb_true in H | apply ltb_false in H
        | apply eqb_true in H ].

(** A number is falsy exactly when it is [NaN] or its value is zero. *)
Lemma truthy_false (x : float) :
  JS.truthy x = false <-> is_nan x = true \/ JS.value x = 0%Z.
Proof.
  unfold JS.truthy. rewrite andb_false_iff, !negb_false_iff, eqb_true.
  change (JS.value 0) with 0%Z. change (is_nan 0) with false.
  destruct (is_nan x); intuition discriminate.
Qed.

(** [x || 0] compares like [x] whenever [x] is a number. *)
Lemma or_zero_value (x : float) :
  is_nan x = false ->
  is_nan (JS.or_num (Some x) 0) = false /\
  JS.value (JS.or_num (Some x) 0) = JS.value x.
Proof.
  intros N. cbn [JS.or_num]. destruct (JS.truthy x) eqn:T; [auto|].
  apply truthy_false in T. destruct T as [T | T]; [congruence|].
  split; [reflexivity | symmetry; exact T].
Qed.

(** *** Rounding gives a number of the format *)

(** The number of bits of a positive integer, and how it changes under a
    shift and with the size of the integer. *)
Lemma Zdigits2_bounds (m : Z) :
  (0 < m)%Z -> (2 ^ (Zdigits2 m - 1) <= m < 2 ^ Zdigits2 m)%Z.
Proof.
  destruct m as [ | p | p ]; try lia. intros _. apply digits2_pos_bounds.
Qed.

Lemma Zdigits2_unique (m k : Z) :
  (2 ^ (k - 1) <= m < 2 ^ k)%Z -> (0 < m)%Z -> Zdigits2 m = k.
Proof.
  intros [Hlo Hhi] Hm.
  pose proof (Zdigits2_bounds m Hm) as [Dlo Dhi].
  set (d := Zdigits2 m) in *.
  assert (Hd : (0 < d)%Z) by (subst d; destruct m; cbn; lia).
  assert (Hk : (0 < k)%Z).
  { destruct (Z.ltb_spec 0 k) as [|Hk]; [assumption|].
    destruct (Z.eq_dec k 0) as [-> | Hn].
    - cbn in Hhi. lia.
    - rewrite (Z.pow_neg_r 2 k) in Hhi by lia. lia. }
  destruct (Z.lt_trichotomy d k) as [H | [H | H]]; [|assumption|].
  - assert (2 ^ d <= 2 ^ (k - 1))%Z by (apply Z.pow_le_mono_r; lia). lia.
  - assert (2 ^ k <= 2 ^ (d - 1))%Z by (apply Z.pow_le_mono_r; lia). lia.
Qed.

Lemma Zdigits2_shift (m n : Z) :
  (0 < m)%Z -> (0 <= n < Zdigits2 m)%Z ->
  (0 < m / 2 ^ n)%Z /\ Zdigits2 (m / 2 ^ n) = (Zdigits2 m - n)%Z.
Proof.
  intros Hm Hn.
  pose proof (Zdigits2_bounds m Hm) as [Dlo Dhi].
  set (d := Zdigits2 m) in *.
  assert (Hp : (0 < 2 ^ n)%Z) by (apply Z.pow_pos_nonneg; lia).
  assert (Hlo : (2 ^ (d - n - 1) <= m / 2 ^ n)%Z).
  { apply Z.div_le_lower_bound; [exact Hp|].
    rewrite <- Z.pow_add_r by lia.
    replace (n + (d - n - 1))%Z with (d - 1)%Z by lia. exact Dlo. }
  assert (Hhi : (m / 2 ^ n < 2 ^ (d - n))%Z).
  { apply Z.div_lt_upper_bound; [exact Hp|].
    rewrite <- Z.pow_add_r by lia.
    replace (n + (d - n))%Z with d by lia. exact Dhi. }
  assert (Hq : (0 < 2 ^ (d - n - 1))%Z) by (apply Z.pow_pos_nonneg; lia).
  split; [lia|]. apply Zdigits2_unique; [|lia]. split; assumption.
Qed.

Lemma Zdigits2_mono (a b : Z) :
  (0 < a <= b)%Z -> (Zdigits2 a <= Zdigits2 b)%Z.
Proof.
  intros [Ha Hab].
  pose proof (Zdigits2_bounds a Ha) as [Alo _].
  pose proof (Zdigits2_bounds b ltac:(lia)) as [_ Bhi].
  destruct (Z.le_gt_cases (Zdigits2 a) (Zdigits2 b)) as [|H]; [assumption|].
  assert (2 ^ Zdigits2 b <= 2 ^ (Zdigits2 a - 1))%Z
    by (apply Z.pow_le_mono_r; [lia|lia]).
  lia.
Qed.

Lemma fexp64_eq (x : Z) : fexp prec emax x = JS.fexp64 x.
Proof. reflexivity. Qed.

(** Shifting to the exponent of the format gives a canonical mantissa. *)
Lemma shr_fexp_canonical (m e : Z) (l : location) :
  (0 < m)%Z -> (-1074 <= e)%Z -> (e <= JS.fexp64 (Zdigits2 m + e))%Z ->
  let m' := shr_m (fst (shr_fexp prec emax m e l)) in
  let e' := snd (shr_fexp prec emax m e l) in
  (0 < m')%Z /\ (-1074 <= e')%Z /\ JS.fexp64 (Zdigits2 m' + e') = e'.
Proof.
  intros Hm He Hf. unfold shr_fexp, shr. rewrite fexp64_eq.
  pose proof (Zdigits2_bounds m Hm) as [Dlo Dhi].
  assert (Hd : (0 < Zdigits2 m)%Z) by (destruct m; cbn; lia).
  set (d := Zdigits2 m) in *.
  destruct (JS.fexp64 (d + e) - e)%Z as [ | p | p ] eqn:Hs;
    cbn [fst snd]; rewrite ?shr_record_of_loc_m.
  - fold d. repeat split; lia.
  - rewrite shr_iter_div by (rewrite shr_record_of_loc_m; lia).
    rewrite shr_record_of_loc_m.
    assert (Hp : (0 <= Z.pos p < d)%Z) by (unfold JS.fexp64 in Hs; lia).
    destruct (Zdigits2_shift m (Z.pos p) Hm Hp) as [Hq Hdq]. fold d in Hdq.
    rewrite Hdq. repeat split; try lia.
    replace (d - Z.pos p + (e + Z.pos p))%Z with (d + e)%Z by lia. lia.
  - lia.
Qed.

Lemma round_nearest_even_cases (m : Z) (l : location) :
  round_nearest_even m l = m \/ round_nearest_even m l = (m + 1)%Z.
Proof.
  destruct l as [ | [ | | ] ]; cbn [round_nearest_even]; auto.
  destruct (Z.even m); auto.
Qed.

Lemma fexp64_mono (x y : Z) : (x <= y)%Z -> (JS.fexp64 x <= JS.fexp64 y)%Z.
Proof. unfold JS.fexp64. lia. Qed.

(** Rounding an integer that has bits enough gives a binary64 number. *)
Lemma binary_round_aux_valid (sx : bool) (m e : Z) (l : location) :
  (0 < m)%Z -> (-1074 <= e)%Z -> (e <= JS.fexp64 (Zdigits2 m + e))%Z ->
  valid_binary (binary_round_aux prec emax sx m e l) = true.
Proof.
  intros Hm He Hf. unfold binary_round_aux.
  pose proof (shr_fexp_canonical m e l Hm He Hf) as (H1 & H2 & H3).
  destruct (shr_fexp prec emax m e l) as [r1 e1]. cbn [fst snd] in H1, H2, H3.
  set (m1 := shr_m r1) in *.
  set (m2 := round_nearest_even m1 (loc_of_shr_record r1)).
  assert (Hm2 : (m1 <= m2 <= m1 + 1)%Z)
    by (subst m2; destruct (round_nearest_even_cases m1 (loc_of_shr_record r1))
          as [-> | ->]; lia).
  assert (Hf2 : (e1 <= JS.fexp64 (Zdigits2 m2 + e1))%Z).
  { rewrite <- H3 at 1. apply fexp64_mono.
    pose proof (Zdigits2_mono m1 m2 ltac:(lia)). lia. }
  pose proof (shr_fexp_canonical m2 e1 loc_Exact ltac:(lia) H2 Hf2)
    as (K1 & K2 & K3).
  destruct (shr_fexp prec emax m2 e1 loc_Exact) as [r2 e2].
  cbn [fst snd] in K1, K2, K3.
  destruct (shr_m r2) as [ | q | q ]; try lia.
  destruct (e2 <=? emax - prec)%Z eqn:Hle; [|reflexivity].
  cbn [valid_binary]. unfold bounded, canonical_mantissa.
  rewrite Hle, fexp64_eq. cbn [Zdigits2] in K3. rewrite K3, Z.eqb_refl.
  reflexivity.
Qed.

Lemma Zdigits2_pow2_le (q k : Z) :
  (0 <= k)%Z -> (2 ^ k <= q)%Z -> (k + 1 <= Zdigits2 q)%Z.
Proof.
  intros Hk Hq.
  assert (Hp : (0 < 2 ^ k)%Z) by (apply Z.pow_pos_nonneg; lia).
  pose proof (Zdigits2_bounds q ltac:(lia)) as [_ Hhi].
  destruct (Z.le_gt_cases (k + 1) (Zdigits2 q)) as [|H]; [assumption|].
  assert (2 ^ Zdigits2 q <= 2 ^ k)%Z.
  { destruct (Z.le_gt_cases 0 (Zdigits2 q)).
    - apply Z.pow_le_mono_r; lia.
    - rewrite Z.pow_neg_r by lia. lia. }
  lia.
Qed.

(** The quotient of two whole numbers, rounded: a number of the format,
    and not [NaN]. *)
Lemma SFdiv_integers (neg : bool) (n d : positive) :
  (Zdigits2 (Z.pos d) <= 1000)%Z ->
  let q := SF64div (S754_finite neg n 0) (S754_finite false d 0) in
  valid_binary q = true /\ JS.is_nan_sf q = false.
Proof.
  intros Hd. cbn zeta. unfold SF64div, SFdiv, SFdiv_core_binary.
  rewrite fexp64_eq.
  pose proof (Zdigits2_bounds (Z.pos n) ltac:(lia)) as [Nlo Nhi].
  pose proof (Zdigits2_bounds (Z.pos d) ltac:(lia)) as [Dlo Dhi].
  set (d1 := Zdigits2 (Z.pos n)) in *. set (d2 := Zdigits2 (Z.pos d)) in *.
  assert (Hd1 : (0 < d1)%Z) by (subst d1; cbn; lia).
  assert (Hd2 : (0 < d2)%Z) by (subst d2; cbn; lia).
  replace (d1 + 0 - (d2 + 0))%Z with (d1 - d2)%Z by lia.
  replace (0 - 0)%Z with 0%Z by lia.
  set (e' := Z.min (JS.fexp64 (d1 - d2)) 0).
  assert (He' : (-1074 <= e' <= 0)%Z) by (subst e'; unfold JS.fexp64; lia).
  assert (Hfe : (e' <= JS.fexp64 (d1 - d2))%Z) by (subst e'; lia).
  assert (Hs : (53 + d2 <= d1 - e')%Z) by (subst e'; unfold JS.fexp64; lia).
  set (m' := match (0 - e')%Z with
             | 0%Z => Z.pos n
             | Z.pos _ => Z.shiftl (Z.pos n) (0 - e')
             | Z.neg _ => 0%Z
             end).
  assert (Hm' : m' = (Z.pos n * 2 ^ (- e'))%Z).
  { subst m'. destruct (0 - e')%Z as [ | p | p ] eqn:E; try lia.
    - replace (- e')%Z with 0%Z by lia. lia.
    - rewrite Z.shiftl_mul_pow2 by lia. f_equal. f_equal. lia. }
  assert (Hlow : (2 ^ (d1 - e' - 1) <= m')%Z).
  { rewrite Hm'. replace (d1 - e' - 1)%Z with ((d1 - 1) + - e')%Z by lia.
    rewrite Z.pow_add_r by lia.
    apply Z.mul_le_mono_nonneg_r; [apply Z.pow_nonneg; lia | exact Nlo]. }
  pose proof (Z_div_mod m' (Z.pos d) ltac:(lia)) as Hdm.
  destruct (Z.div_eucl m' (Z.pos d)) as [q r] eqn:Hqr.
  destruct Hdm as [Hq Hr].
  assert (Hq52 : (2 ^ (d1 - e' - 1 - d2) <= q)%Z).
  { assert (E : (2 ^ (d1 - e' - 1) = 2 ^ (d1 - e' - 1 - d2) * 2 ^ d2)%Z)
      by (rewrite <- Z.pow_add_r by lia; f_equal; lia).
    assert (P : (0 < 2 ^ (d1 - e' - 1 - d2))%Z)
      by (apply Z.pow_pos_nonneg; lia).
    nia. }
  assert (Hqpos : (0 < q)%Z).
  { assert (0 < 2 ^ (d1 - e' - 1 - d2))%Z by (apply Z.pow_pos_nonneg; lia).
    lia. }
  pose proof (Zdigits2_pow2_le q (d1 - e' - 1 - d2) ltac:(lia) Hq52) as Hdq.
  assert (Hpre : (e' <= JS.fexp64 (Zdigits2 q + e'))%Z).
  { etransitivity; [exact Hfe|]. apply fexp64_mono. lia. }
  split.
  - apply binary_round_aux_valid; lia.
  - destruct (binary_round_aux_positive (xorb neg false) q e'
                (new_location (Z.pos d) r) Hqpos ltac:(lia))
      as [-> | (m2 & e2 & ->)]; reflexivity.
Qed.

(** A numeral with one decimal reads back as a number. *)
Lemma Number_Dec_not_nan (neg : bool) (n : N) :
  is_nan (JS.Number (JS.Dec neg n 1)) = false.
Proof.
  destruct n as [ | n ]; cbn [JS.Number].
  - destruct neg; reflexivity.
  - change (Z.to_pos (10 ^ Z.of_nat 1)) with 10%positive.
    destruct (SFdiv_integers neg n 10 ltac:(cbn; lia)) as [V N].
    rewrite is_nan_Prim2SF, Prim2SF_SF2Prim by exact V. exact N.
Qed.

(** *** Where [NaN] cannot come from *)

Lemma shr_fexp_nonneg (m e : Z) (l : location) :
  (0 <= m)%Z -> (0 <= shr_m (fst (shr_fexp prec emax m e l)))%Z.
Proof.
  intros Hm. unfold shr_fexp, shr.
  destruct (fexp prec emax (Zdigits2 m + e) - e)%Z as [ | p | p ];
    cbn [fst]; rewrite ?shr_record_of_loc_m; try lia.
  rewrite shr_iter_div by (rewrite shr_record_of_loc_m; lia).
  rewrite shr_record_of_loc_m.
  apply Z.div_pos; [lia | apply Z.pow_pos_nonneg; lia].
Qed.

(** Rounding an integer that is not negative never gives [NaN]. *)
Lemma binary_round_aux_not_nan (sx : bool) (m e : Z) (l : location) :
  (0 <= m)%Z ->
  JS.is_nan_sf (binary_round_aux prec emax sx m e l) = false.
Proof.
  intros Hm. unfold binary_round_aux.
  pose proof (shr_fexp_nonneg m e l Hm) as H1.
  destruct (shr_fexp prec emax m e l) as [r1 e1]. cbn [fst] in H1.
  pose proof (round_nearest_even_ge (shr_m r1) (loc_of_shr_record r1)) as Hr.
  pose proof (shr_fexp_nonneg _ e1 loc_Exact (Z.le_trans _ _ _ H1 Hr)) as H2.
  destruct (shr_fexp prec emax _ e1 loc_Exact) as [r2 e2]. cbn [fst] in H2.
  destruct (shr_m r2) as [ | q | q ]; try lia; [reflexivity|].
  destruct (e2 <=? emax - prec)%Z; reflexivity.
Qed.

(** A number that is at least zero and below infinity is a zero or a
    positive finite number; one above zero is positive, finite or not. *)
Lemma finite_nonneg_shape (c : float) :
  (0 <=? c)%float = true -> (c <? infinity)%float = true ->
  (exists s, Prim2SF c = S754_zero s)
  \/ (exists m e, Prim2SF c = S754_finite false m e).
Proof.
  rewrite leb_spec, ltb_spec.
  change (Prim2SF 0) with (S754_zero false).
  change (Prim2SF infinity) with (S754_infinity false).
  destruct (Prim2SF c) as [s | [ | ] | | [ | ] m e]; cbn; try discriminate;
    eauto.
Qed.

Lemma positive_shape (t : float) :
  (0 <? t)%float = true ->
  Prim2SF t = S754_infinity false
  \/ (exists m e, Prim2SF t = S754_finite false m e).
Proof.
  rewrite ltb_spec. change (Prim2SF 0) with (S754_zero false).
  destruct (Prim2SF t) as [s | [ | ] | | [ | ] m e]; cbn; try discriminate;
    eauto.
Qed.

(** A count over a positive total, times 100, written with one decimal and
    read back, is a number. *)
Lemma div_not_nan (c t : float) :
  (0 <=? c)%float = true -> (c <? infinity)%float = true ->
  (0 <? t)%float = true ->
  is_nan (c / t) = false.
Proof.
  intros Hc1 Hc2 Ht. rewrite is_nan_Prim2SF, div_spec.
  destruct (finite_nonneg_shape c Hc1 Hc2) as [(s & ->) | (m & e & ->)];
    destruct (positive_shape t Ht) as [-> | (m' & e' & ->)];
    try reflexivity.
  unfold SF64div, SFdiv, SFdiv_core_binary.
  match goal with
  | |- context [Z.div_eucl ?a ?b] =>
      pose proof (Z_div_mod a b ltac:(lia)) as Hdm;
      assert (Ha : (0 <= a)%Z)
        by (destruct (e - e' - _)%Z; try lia; apply Z.shiftl_nonneg; lia);
      destruct (Z.div_eucl a b) as [q r]
  end.
  apply binary_round_aux_not_nan. destruct Hdm as [Hq Hr]. nia.
Qed.

Lemma mul_100_not_nan (x : float) :
  is_nan x = false -> is_nan (x * 100) = false.
Proof.
  rewrite !is_nan_Prim2SF, mul_spec.
  change (Prim2SF 100) with (S754_finite false 7036874417766400 (-46)).
  destruct (Prim2SF x) as [s | s | | s m e]; try discriminate; intros _;
    try reflexivity.
  unfold SF64mul, SFmul. apply binary_round_aux_not_nan. lia.
Qed.

Lemma Number_toFixed_not_nan (x : float) :
  is_nan x = false -> is_nan (JS.Number (JS.toFixed x 1)) = false.
Proof.
  intros N. unfold JS.toFixed.
  destruct (Prim2SF x) as [s | s | | s m e];
    try exact N; try apply Number_Dec_not_nan.
  destruct (abs x <? 1e21)%float; [apply Number_Dec_not_nan | exact N].
Qed.

(** [toFixed] rounds to the nearest numeral, upward on a tie: the digits
    [n] of [x.toFixed(f)] satisfy [n <= |x| * 10^f + 1/2 < n + 1] (written
    here in units of [2^-1074], and doubled). *)
Lemma toFixed_nearest (x : float) (f : nat) (neg : bool) (n : N) :
  JS.toFixed x f = JS.Dec neg n f ->
  (2 * Z.of_N n * 2 ^ 1074
   <= 2 * 10 ^ Z.of_nat f * Z.abs (JS.value x) + 2 ^ 1074
   < 2 * (Z.of_N n + 1) * 2 ^ 1074)%Z.
Proof.
  unfold JS.toFixed, JS.value. pose proof (Prim2SF_valid x) as V.
  assert (P : (0 < 2 ^ 1074)%Z) by (apply Z.pow_pos_nonneg; lia).
  destruct (Prim2SF x) as [s | s | | s m e]; try discriminate.
  - intros H. injection H as _ <-. cbn [JS.scaled Z.abs Z.of_N]. lia.
  - destruct (abs x <? 1e21)%float; [|discriminate].
    intros H. injection H as _ <-.
    cbn [valid_binary] in V. apply bounded_inv in V. destruct V as (He & _).
    assert (Habs : Z.abs (JS.scaled (S754_finite s m e))
                   = (Z.pos m * 2 ^ (e + 1074))%Z).
    { cbn [JS.scaled].
      assert (0 < 2 ^ (e + 1074))%Z by (apply Z.pow_pos_nonneg; lia).
      destruct s; cbn [cond_Zopp]; lia. }
    rewrite Habs. clear Habs. unfold JS.round_half_up.
    set (t := (10 ^ Z.of_nat f)%Z).
    assert (Ht : (0 < t)%Z) by (apply Z.pow_pos_nonneg; lia).
    destruct e as [ | e | k ].
    + rewrite Z2N.id by lia. cbn [Z.add]. change (2 ^ 0)%Z with 1%Z. nia.
    + rewrite Z2N.id
        by (apply Z.mul_nonneg_nonneg; [lia | apply Z.pow_nonneg; lia]).
      replace (Z.pos e + 1074)%Z with (1074 + Z.pos e)%Z by lia.
      rewrite Z.pow_add_r by lia.
      assert (0 < 2 ^ Z.pos e)%Z by (apply Z.pow_pos_nonneg; lia). nia.
    + set (k' := Z.pos k) in *.
      assert (Hk : (0 < k' <= 1074)%Z) by (subst k'; lia).
      replace (Z.neg k + 1074)%Z with (1074 - k')%Z by (subst k'; lia).
      set (num := (2 * (Z.pos m * t) + 2 ^ k')%Z).
      assert (Pk : (0 < 2 ^ k')%Z) by (apply Z.pow_pos_nonneg; lia).
      assert (Pk1 : (2 ^ (k' + 1) = 2 * 2 ^ k')%Z)
        by (rewrite Z.pow_add_r by lia; lia).
      assert (Hnum : (0 <= num)%Z) by (subst num; nia).
      pose proof (Z.div_pos num (2 ^ (k' + 1)) Hnum ltac:(lia)) as Hq.
      rewrite Z2N.id by exact Hq.
      pose proof (Z_div_mod_eq_full num (2 ^ (k' + 1))) as Hdiv.
      pose proof (Z.mod_pos_bound num (2 ^ (k' + 1)) ltac:(lia)) as Hmod.
      set (q := (num / 2 ^ (k' + 1))%Z) in *.
      assert (E : (2 ^ 1074 = 2 ^ k' * 2 ^ (1074 - k'))%Z)
        by (rewrite <- Z.pow_add_r by lia; f_equal; lia).
      set (c := (2 ^ (1074 - k'))%Z) in *.
      assert (Pc : (0 < c)%Z) by (subst c; apply Z.pow_pos_nonneg; lia).
      rewrite E. subst num. nia.
Qed.

(** *** Sorting by a numeric key, largest first *)

Section SortByKey.
Context {A : Type} (key : A -> float).

(** Under such a comparator [a] goes after [b] exactly when its key is the
    smaller one. *)
Lemma goes_after_descending (a b : A) :
  JS.goes_after (JS.descending key) a b = (key a <? key b)%float.
Proof. unfold JS.goes_after, JS.descending. apply sub_positive. Qed.

Lemma insert_permutation (a : A) (l : list A) :
  Permutation (JS.insert (JS.descending key) a l) (a :: l).
Proof.
  induction l as [ | b l IH]; cbn [JS.insert]; [reflexivity|].
  destruct (JS.goes_after (JS.descending key) a b); [|reflexivity].
  rewrite IH. apply perm_swap.
Qed.

Lemma sort_permutation (l : list A) :
  Permutation (JS.sort (JS.descending key) l) l.
Proof.
  induction l as [ | a l IH]; cbn [JS.sort]; [reflexivity|].
  rewrite insert_permutation. apply perm_skip. exact IH.
Qed.

(** With no [NaN] among the keys the sort puts them in descending order. *)
Lemma insert_sorted (a : A) (l : list A) :
  is_nan (key a) = false ->
  Forall (fun b => is_nan (key b) = false) l ->
  StronglySorted (JS.not_below key) l ->
  StronglySorted (JS.not_below key) (JS.insert (JS.descending key) a l).
Proof.
  intros Na Nl Sl. induction l as [ | b l IH]; cbn [JS.insert].
  - constructor; constructor.
  - inversion Nl as [ | ? ? Nb Nl']; subst.
    inversion Sl as [ | ? ? Sl' Hb]; subst.
    rewrite goes_after_descending.
    destruct (key a <? key b)%float eqn:Hab.
    + apply ltb_true in Hab. destruct Hab as (_ & _ & Hab).
      constructor; [apply IH; assumption|].
      eapply Permutation_Forall.
      * symmetry. apply insert_permutation.
      * constructor; [|assumption].
        apply leb_true. repeat split; try assumption. lia.
    + apply ltb_false in Hab.
      assert (Hba : (JS.value (key b) <= JS.value (key a))%Z)
        by (destruct Hab as [H | [H | H]]; [congruence | congruence | exact H]).
      constructor; [exact Sl|].
      constructor; [apply leb_true; auto|].
      rewrite Forall_forall in Hb, Nl' |- *. intros c Hc.
      specialize (Hb c Hc). apply leb_true in Hb.
      apply leb_true. repeat split; try tauto. lia.
Qed.

Lemma sort_sorted (l : list A) :
  Forall (fun b => is_nan (key b) = false) l ->
  StronglySorted (JS.not_below key) (JS.sort (JS.descending key) l).
Proof.
  induction l as [ | a l IH]; intros N; cbn [JS.sort]; [constructor|].
  inversion N as [ | ? ? Na Nl]; subst.
  apply insert_sorted; [assumption | | apply IH; assumption].
  eapply Permutation_Forall; [symmetry; apply sort_permutation|].
  exact Nl.
Qed.

(** Entries of one and the same key are never reordered. *)
Lemma insert_stable (k : float) (a : A) (l : list A) :
  filter (fun e => (key e =? k)%float) (JS.insert (JS.descending key) a l)
  = filter (fun e => (key e =? k)%float) (a :: l).
Proof.
  induction l as [ | b l IH]; cbn [JS.insert]; [reflexivity|].
  rewrite goes_after_descending.
  destruct (key a <? key b)%float eqn:Hab; [|reflexivity].
  cbn [filter] in IH |- *. rewrite IH.
  destruct (key a =? k)%float eqn:Ha; destruct (key b =? k)%float eqn:Hb;
    try reflexivity.
  apply ltb_true in Hab. apply eqb_true in Ha, Hb. lia.
Qed.

Lemma sort_stable (k : float) (l : list A) :
  filter (fun e => (key e =? k)%float) (JS.sort (JS.descending key) l)
  = filter (fun e => (key e =? k)%float) l.
Proof.
  induction l as [ | a l IH]; cbn [JS.sort]; [reflexivity|].
  rewrite insert_stable. cbn [filter]. rewrite IH. reflexivity.
Qed.

End SortByKey.

(** * The result classifier *)

(** The thresholds of [getNDVIStatus] are numbers, in increasing order. *)
Lemma is_nan_constants :
  is_nan 0.6 = false /\ is_nan 0.4 = false /\ is_nan 0.2 = false /\
  is_nan 0 = false.
Proof. repeat split; reflexivity. Qed.

Lemma thresholds_increase :
  (0 < JS.value 0.2 < JS.value 0.4)%Z /\ (JS.value 0.4 < JS.value 0.6)%Z.
Proof.
  assert (H1 : (0 <? 0.2)%float = true) by reflexivity.
  assert (H2 : (0.2 <? 0.4)%float = true) by reflexivity.
  assert (H3 : (0.4 <? 0.6)%float = true) by reflexivity.
  apply ltb_true in H1, H2, H3.
  change (JS.value 0) with 0%Z in H1. lia.
Qed.

(** [getNDVIStatus] read on the value of a number. *)
Lemma getNDVIStatus_cases (v : float) :
  is_nan v = false ->
  ((JS.value 0.6 <= JS.value v)%Z ->
   ResultsPanel.getNDVIStatus v = Vegetation.Excellent) /\
  ((JS.value 0.4 <= JS.value v < JS.value 0.6)%Z ->
   ResultsPanel.getNDVIStatus v = Vegetation.Good) /\
  ((JS.value 0.2 <= JS.value v < JS.value 0.4)%Z ->
   ResultsPanel.getNDVIStatus v = Vegetation.Moderate) /\
  ((JS.value v < JS.value 0.2)%Z ->
   ResultsPanel.getNDVIStatus v = Vegetation.Poor).
Proof.
  intros N. unfold ResultsPanel.getNDVIStatus.
  destruct is_nan_constants as (N6 & N4 & N2 & _).
  pose proof thresholds_increase as T.
  destruct (0.6 <=? v)%float eqn:H6; read_order H6;
    destruct (0.4 <=? v)%float eqn:H4; read_order H4;
    destruct (0.2 <=? v)%float eqn:H2; read_order H2;
    repeat split; intros; try reflexivity;
    repeat match goal with
           | H : _ \/ _ |- _ => destruct H
           | H : _ /\ _ |- _ => destruct H
           end; try congruence; lia.
Qed.

(** C6. Vegetation classification: an absent [ndvi] counts as 0, and the
    thresholds are inclusive lower bounds: [ndvi >= 0.6] is Excellent,
    [0.4 <= ndvi < 0.6] is Good, [0.2 <= ndvi < 0.4] is Moderate and
    [ndvi < 0.2] is Poor; so an absent [ndvi] is Poor and [ndvi = 0.6] is
    Excellent. *)
Theorem vegetation_classification (r : Api.AnalysisResult) :
  let ndvi := match Api.ndvi r with Some x => x | None => 0%float end in
  ((0.6 <=? ndvi)%float = true ->
   ResultsPanel.ndviStatus r = Vegetation.Excellent) /\
  ((0.4 <=? ndvi)%float = true -> (ndvi <? 0.6)%float = true ->
   ResultsPanel.ndviStatus r = Vegetation.Good) /\
  ((0.2 <=? ndvi)%float = true -> (ndvi <? 0.4)%float = true ->
   ResultsPanel.ndviStatus r = Vegetation.Moderate) /\
  ((ndvi <? 0.2)%float = true ->
   ResultsPanel.ndviStatus r = Vegetation.Poor) /\
  (Api.ndvi r = None -> ResultsPanel.ndviStatus r = Vegetation.Poor) /\
  (Api.ndvi r = Some 0.6%float ->
   ResultsPanel.ndviStatus r = Vegetation.Excellent).
Proof.
  unfold ResultsPanel.ndviStatus, ResultsPanel.ndviValue.
  destruct (Api.ndvi r) as [x | ]; cbn zeta.
  - assert (K : is_nan x = false ->
                is_nan (JS.or_num (Some x) 0) = false /\
                JS.value (JS.or_num (Some x) 0) = JS.value x)
      by apply or_zero_value.
    set (v := JS.or_num (Some x) 0) in *.
    repeat split; intros.
    + apply leb_true in H. destruct H as (_ & N & L).
      destruct (K N) as [Nv E].
      apply (getNDVIStatus_cases v Nv). lia.
    + apply leb_true in H. apply ltb_true in H0.
      destruct H as (_ & N & L). destruct H0 as (_ & _ & L').
      destruct (K N) as [Nv E].
      apply (getNDVIStatus_cases v Nv). lia.
    + apply leb_true in H. apply ltb_true in H0.
      destruct H as (_ & N & L). destruct H0 as (_ & _ & L').
      destruct (K N) as [Nv E].
      apply (getNDVIStatus_cases v Nv). lia.
    + apply ltb_true in H. destruct H as (N & _ & L).
      destruct (K N) as [Nv E].
      apply (getNDVIStatus_cases v Nv). lia.
    + discriminate.
    + injection H as ->. reflexivity.
  - repeat split; intros; try reflexivity; discriminate.
Qed.

(** The four cases of C6 at 0.75, 0.5, 0.25, 0.1, at an absent field and at
    the boundary 0.6. *)
Lemma vegetation_classification_witness :
  ResultsPanel.ndviStatus (Field.result (Some 0.75%float) None None None)
  = Vegetation.Excellent /\
  ResultsPanel.ndviStatus (Field.result (Some 0.5%float) None None None)
  = Vegetation.Good /\
  ResultsPanel.ndviStatus (Field.result (Some 0.25%float) None None None)
  = Vegetation.Moderate /\
  ResultsPanel.ndviStatus (Field.result (Some 0.1%float) None None None)
  = Vegetation.Poor /\
  ResultsPanel.ndviStatus (Field.result None None None None)
  = Vegetation.Poor /\
  ResultsPanel.ndviStatus (Field.result (Some 0.6%float) None None None)
  = Vegetation.Excellent.
Proof.
  pose proof (vegetation_classification
                (Field.result (Some 0.75%float) None None None)) as (H & _).
  split; [exact (H eq_refl)|]. clear H.
  pose proof (vegetation_classification
                (Field.result (Some 0.5%float) None None None))
    as (_ & H & _).
  split; [exact (H eq_refl eq_refl)|]. clear H.
  pose proof (vegetation_classification
                (Field.result (Some 0.25%float) None None None))
    as (_ & _ & H & _).
  split; [exact (H eq_refl eq_refl)|]. clear H.
  pose proof (vegetation_classification
                (Field.result (Some 0.1%float) None None None))
    as (_ & _ & _ & H & _).
  split; [exact (H eq_refl)|]. clear H.
  pose proof (vegetation_classification
                (Field.result None None None None))
    as (_ & _ & _ & _ & H & _).
  split; [exact (H eq_refl)|]. clear H.
  pose proof (vegetation_classification
                (Field.result (Some 0.6%float) None None None))
    as (_ & _ & _ & _ & _ & H).
  exact (H eq_refl).
Defined.

(** The running sum takes the entries in order, and an entry with no [rain]
    adds [0]. *)
Lemma sumRain_snoc (l : list Api.RainEntry) (d : Api.RainEntry) :
  ResultsPanel.sumRain (l ++ [d])
  = (ResultsPanel.sumRain l + JS.or_num (Api.rain d) 0)%float.
Proof. unfold ResultsPanel.sumRain. rewrite fold_left_app. reflexivity. Qed.

(** The local constants of the panel, by the fields they come from. *)
Lemma rainfallData_series (r : Api.AnalysisResult) :
  ResultsPanel.rainfallData r
  = match Field.series r with Some l => l | None => [] end.
Proof.
  unfold ResultsPanel.rainfallData, Field.series.
  destruct (Api.rainfall r); reflexivity.
Qed.

Lemma backendStatus_droughtData (r : Api.AnalysisResult) :
  ResultsPanel.backendStatus (Some (ResultsPanel.droughtData r))
  = match Field.droughtStatus r with
    | Some s => if JS.truthy_str s then Some s else None
    | None => None
    end.
Proof.
  unfold ResultsPanel.backendStatus, ResultsPanel.droughtData,
    Field.droughtStatus.
  destruct (Api.drought r); reflexivity.
Qed.

Lemma truthy_str_true (s : string) : JS.truthy_str s = true <-> s <> "".
Proof.
  unfold JS.truthy_str. rewrite negb_true_iff. apply String.eqb_neq.
Qed.

(** C2. Drought classification.  A non-empty [drought.status] decides:
    "Normal", "Mild Drought" and "Moderate Drought" give NoDrought,
    MildDrought and Moderate, any other text gives SevereOrWorse with that
    text kept.  Without one, a non-empty rainfall series decides by its
    average (sum of [rain], a missing one counting 0, over the number of
    entries): at least 5 is NoDrought, else at least 2 is MildDrought, else
    SevereOrWorse.  Without either the classification is Unknown. *)
Theorem drought_classification (r : Api.AnalysisResult) :
  let result := ResultsPanel.droughtStatus r in
  let noStatus :=
    Field.droughtStatus r = None \/ Field.droughtStatus r = Some "" in
  let average (l : list Api.RainEntry) :=
    (ResultsPanel.sumRain l / JS.of_nat (List.length l))%float in
  (Field.droughtStatus r = Some "Normal" ->
   result = DroughtClass.NoDrought) /\
  (Field.droughtStatus r = Some "Mild Drought" ->
   result = DroughtClass.MildDrought) /\
  (Field.droughtStatus r = Some "Moderate Drought" ->
   result = DroughtClass.Moderate) /\
  (forall s, Field.droughtStatus r = Some s ->
     s <> "" -> s <> "Normal" -> s <> "Mild Drought" ->
     s <> "Moderate Drought" ->
     result = DroughtClass.SevereOrWorse s) /\
  (forall d l, noStatus -> Field.series r = Some (d :: l) ->
     result =
     if (5 <=? average (d :: l))%float then DroughtClass.NoDrought
     else if (2 <=? average (d :: l))%float then DroughtClass.MildDrought
     else DroughtClass.SevereOrWorse "Severe Drought") /\
  (noStatus -> Field.series r = None \/ Field.series r = Some [] ->
   result = DroughtClass.Unknown) /\
  (ResultsPanel.sumRain [] = 0%float /\
   (forall l d x, Api.rain d = Some x ->
      (x =? 0)%float = false -> is_nan x = false ->
      ResultsPanel.sumRain (l ++ [d]) = (ResultsPanel.sumRain l + x)%float) /\
   (forall l d, Api.rain d = None ->
      ResultsPanel.sumRain (l ++ [d]) = (ResultsPanel.sumRain l + 0)%float)).
Proof.
  cbn zeta. unfold ResultsPanel.droughtStatus, ResultsPanel.getDroughtStatus.
  rewrite backendStatus_droughtData, rainfallData_series.
  repeat split.
  - intros ->. reflexivity.
  - intros ->. reflexivity.
  - intros ->. reflexivity.
  - intros s -> Hs H1 H2 H3.
    apply truthy_str_true in Hs. rewrite Hs.
    apply String.eqb_neq in H1, H2, H3. rewrite H1, H2, H3. reflexivity.
  - intros d l [-> | ->] ->; reflexivity.
  - intros [-> | ->] [-> | ->]; reflexivity.
  - intros l d x H Hz Hn. rewrite sumRain_snoc, H.
    cbn [JS.or_num]. unfold JS.truthy. rewrite Hz, Hn. reflexivity.
  - intros l d H. rewrite sumRain_snoc, H. reflexivity.
Qed.

(** C2 at the inputs of the specification: the three fixed texts, the text
    "Severe Drought", a series of average 3, one of average 6, one of
    average 1, and a result with neither section. *)
Lemma drought_classification_witness :
  let withStatus s :=
    Field.result None None (Some {| Api.status := Some s |}) None in
  let withSeries l :=
    Field.result None
      (Some {| Api.features := Some l; Api.statistics := None |}) None None in
  ResultsPanel.droughtStatus (withStatus "Normal") = DroughtClass.NoDrought /\
  ResultsPanel.droughtStatus (withStatus "Mild Drought")
  = DroughtClass.MildDrought /\
  ResultsPanel.droughtStatus (withStatus "Moderate Drought")
  = DroughtClass.Moderate /\
  ResultsPanel.droughtStatus (withStatus "Severe Drought")
  = DroughtClass.SevereOrWorse "Severe Drought" /\
  ResultsPanel.droughtStatus (withSeries [Field.rainOf 1; Field.rainOf 5])
  = DroughtClass.MildDrought /\
  ResultsPanel.droughtStatus (withSeries [Field.rainOf 4; Field.rainOf 8])
  = DroughtClass.NoDrought /\
  ResultsPanel.droughtStatus
    (withSeries [Field.rainOf 2; {| Api.date := None; Api.rain := None |}])
  = DroughtClass.SevereOrWorse "Severe Drought" /\
  ResultsPanel.droughtStatus (Field.result None None None None)
  = DroughtClass.Unknown.
Proof.
  cbn zeta.
  set (withStatus s :=
         Field.result None None (Some {| Api.status := Some s |}) None).
  set (withSeries l :=
         Field.result None
           (Some {| Api.features := Some l; Api.statistics := None |})
           None None).
  pose proof (drought_classification (withStatus "Normal")) as (H & _).
  split; [exact (H eq_refl)|]. clear H.
  pose proof (drought_classification (withStatus "Mild Drought"))
    as (_ & H & _).
  split; [exact (H eq_refl)|]. clear H.
  pose proof (drought_classification (withStatus "Moderate Drought"))
    as (_ & _ & H & _).
  split; [exact (H eq_refl)|]. clear H.
  pose proof (drought_classification (withStatus "Severe Drought"))
    as (_ & _ & _ & H & _).
  split; [apply (H "Severe Drought" eq_refl); discriminate|]. clear H.
  pose proof (drought_classification
                (withSeries [Field.rainOf 1; Field.rainOf 5]))
    as (_ & _ & _ & _ & H & _).
  split; [exact (H _ _ (or_introl eq_refl) eq_refl)|]. clear H.
  pose proof (drought_classification
                (withSeries [Field.rainOf 4; Field.rainOf 8]))
    as (_ & _ & _ & _ & H & _).
  split; [exact (H _ _ (or_introl eq_refl) eq_refl)|]. clear H.
  pose proof (drought_classification
                (withSeries [Field.rainOf 2;
                             {| Api.date := None; Api.rain := None |}]))
    as (_ & _ & _ & _ & H & _).
  split; [exact (H _ _ (or_introl eq_refl) eq_refl)|]. clear H.
  pose proof (drought_classification (Field.result None None None None))
    as (_ & _ & _ & _ & _ & H & _).
  exact (H (or_introl eq_refl) (or_introl eq_refl)).
Defined.

(** C1 as stated fails on the code.  With [total_rainfall: 0] and the
    series [[{rain: 1}, {rain: 2}]] the card shows the sum, "3.0", where
    the claim has the present total, "0.0"; with no total and the empty
    series it shows "N/A", where the claim has the sum of the series that
    exists, "0.0". *)
Lemma rainfall_total_counterexample :
  let zeroTotal :=
    Field.result None
      (Some {| Api.features := Some [Field.rainOf 1; Field.rainOf 2];
               Api.statistics := Some {| Api.total_rainfall := Some 0%float |} |})
      None None in
  let emptySeries :=
    Field.result None
      (Some {| Api.features := Some []; Api.statistics := None |})
      None None in
  (ResultsPanel.rainTotal zeroTotal = ResultsPanel.RainMm (JS.Dec false 30 1)
   /\ Claimed.rainTotal zeroTotal = ResultsPanel.RainMm (JS.Dec false 0 1)
   /\ ResultsPanel.rainTotal zeroTotal <> Claimed.rainTotal zeroTotal)
  /\
  (ResultsPanel.rainTotal emptySeries = ResultsPanel.RainNA
   /\ Claimed.rainTotal emptySeries = ResultsPanel.RainMm (JS.Dec false 0 1)
   /\ ResultsPanel.rainTotal emptySeries <> Claimed.rainTotal emptySeries).
Proof.
  cbn zeta. repeat split; try reflexivity; vm_compute; discriminate.
Qed.

(** C1, amended.  The rainfall total is chosen in this order: if
    [rainfall.statistics.totalRainfall] is present and is a number other
    than zero, it is used, whatever the series sums to; otherwise, if the
    series is not empty, the total is the sum of its [rain] values, a
    missing one counting 0; otherwise (no series, or an empty one) the
    total is unavailable. *)
Theorem rainfall_total (r : Api.AnalysisResult) :
  let noTotal :=
    forall total, Field.totalRainfall r = Some total ->
                  (total =? 0)%float = true \/ is_nan total = true in
  (forall total, Field.totalRainfall r = Some total ->
     (total =? 0)%float = false -> is_nan total = false ->
     ResultsPanel.rainTotal r = ResultsPanel.RainMm (JS.toFixed total 1)) /\
  (forall d l, noTotal -> Field.series r = Some (d :: l) ->
     ResultsPanel.rainTotal r
     = ResultsPanel.RainMm (JS.toFixed (ResultsPanel.sumRain (d :: l)) 1)) /\
  (noTotal -> Field.series r = None \/ Field.series r = Some [] ->
   ResultsPanel.rainTotal r = ResultsPanel.RainNA) /\
  (ResultsPanel.sumRain [] = 0%float /\
   (forall l d x, Api.rain d = Some x ->
      (x =? 0)%float = false -> is_nan x = false ->
      ResultsPanel.sumRain (l ++ [d]) = (ResultsPanel.sumRain l + x)%float) /\
   (forall l d, Api.rain d = None ->
      ResultsPanel.sumRain (l ++ [d]) = (ResultsPanel.sumRain l + 0)%float)).
Proof.
  cbn zeta. unfold ResultsPanel.rainTotal.
  rewrite rainfallData_series.
  assert (E : Api.total_rainfall (ResultsPanel.rainfallStats r)
              = Field.totalRainfall r).
  { unfold ResultsPanel.rainfallStats, Field.totalRainfall.
    destruct (Api.rainfall r) as [rf | ]; [|reflexivity].
    destruct (Api.statistics rf); reflexivity. }
  rewrite E. clear E.
  assert (F : forall t, (t =? 0)%float = true \/ is_nan t = true ->
                        JS.truthy t = false).
  { intros t [H | H]; unfold JS.truthy; rewrite H;
      [reflexivity | apply andb_false_r]. }
  repeat split.
  - intros total -> Hz Hn. unfold JS.truthy. rewrite Hz, Hn. reflexivity.
  - intros d l Hno ->.
    destruct (Field.totalRainfall r) as [t | ]; [|reflexivity].
    rewrite (F t (Hno t eq_refl)). reflexivity.
  - intros Hno Hs.
    assert (Hl : match Field.series r with Some l => l | None => [] end = [])
      by (destruct Hs as [-> | ->]; reflexivity).
    rewrite Hl.
    destruct (Field.totalRainfall r) as [t | ]; [|reflexivity].
    rewrite (F t (Hno t eq_refl)). reflexivity.
  - intros l d x H Hz Hn. rewrite sumRain_snoc, H.
    cbn [JS.or_num]. unfold JS.truthy. rewrite Hz, Hn. reflexivity.
  - intros l d H. rewrite sumRain_snoc, H. reflexivity.
Qed.

(** C1, amended, at the inputs of the specification: a total of 42.5 beside
    a series summing to 1; no statistics and the series 1, 2; a zero total
    and that series; neither section; an empty series. *)
Lemma rainfall_total_witness :
  let rain st l :=
    Field.result None
      (Some {| Api.features := l; Api.statistics := st |}) None None in
  let total t := Some {| Api.total_rainfall := Some t |} in
  ResultsPanel.rainTotal (rain (total 42.5%float) (Some [Field.rainOf 1]))
  = ResultsPanel.RainMm (JS.Dec false 425 1) /\
  ResultsPanel.rainTotal (rain None (Some [Field.rainOf 1; Field.rainOf 2]))
  = ResultsPanel.RainMm (JS.Dec false 30 1) /\
  ResultsPanel.rainTotal
    (rain (total 0%float) (Some [Field.rainOf 1; Field.rainOf 2]))
  = ResultsPanel.RainMm (JS.Dec false 30 1) /\
  ResultsPanel.rainTotal (Field.result None None None None)
  = ResultsPanel.RainNA /\
  ResultsPanel.rainTotal (rain None (Some [])) = ResultsPanel.RainNA.
Proof.
  cbn zeta.
  set (rain st l :=
         Field.result None
           (Some {| Api.features := l; Api.statistics := st |}) None None).
  set (total t := Some {| Api.total_rainfall := Some t |}).
  pose proof (rainfall_total (rain (total 42.5%float) (Some [Field.rainOf 1])))
    as (H & _).
  split; [exact (H _ eq_refl eq_refl eq_refl)|]. clear H.
  pose proof (rainfall_total (rain None (Some [Field.rainOf 1; Field.rainOf 2])))
    as (_ & H & _).
  split; [refine (H (Field.rainOf 1) [Field.rainOf 2] _ eq_refl);
          discriminate|].
  clear H.
  pose proof (rainfall_total
                (rain (total 0%float) (Some [Field.rainOf 1; Field.rainOf 2])))
    as (_ & H & _).
  split; [refine (H (Field.rainOf 1) [Field.rainOf 2] _ eq_refl);
          intros t E; injection E as <-; left; reflexivity|].
  clear H.
  pose proof (rainfall_total (Field.result None None None None))
    as (_ & _ & H & _).
  split; [apply H; [discriminate | left; reflexivity]|]. clear H.
  pose proof (rainfall_total (rain None (Some []))) as (_ & _ & H & _).
  apply H; [discriminate | right; reflexivity].
Defined.

(** C8. The classifier copes with absent sections.  For every result the
    panel shows a report (the four computations are total: no dereference of
    an absent section is left unguarded in the source, so the embedding has
    no error case), and each computation gives its default as soon as its
    own input is absent, whatever the other sections hold: Poor without
    [ndvi], Unknown without [drought] and [rainfall], an empty breakdown
    without [landcover], an unavailable total without [rainfall]. *)
Theorem classifier_tolerates_absence (r : Api.AnalysisResult) :
  ResultsPanel.ResultsPanel (Some r) false None
  = ResultsPanel.Shown
      {| ResultsPanel.vegetation := ResultsPanel.ndviStatus r;
         ResultsPanel.droughtBadge := ResultsPanel.droughtStatus r;
         ResultsPanel.breakdown := ResultsPanel.landcoverStats r;
         ResultsPanel.totalRain := ResultsPanel.rainTotal r |} /\
  (Api.ndvi r = None -> ResultsPanel.ndviStatus r = Vegetation.Poor) /\
  (Api.drought r = None -> Api.rainfall r = None ->
   ResultsPanel.droughtStatus r = DroughtClass.Unknown) /\
  (Api.landcover r = None -> ResultsPanel.landcoverStats r = []) /\
  (Api.rainfall r = None -> ResultsPanel.rainTotal r = ResultsPanel.RainNA).
Proof.
  split; [reflexivity|]. repeat split.
  - intros H. unfold ResultsPanel.ndviStatus, ResultsPanel.ndviValue.
    rewrite H. reflexivity.
  - intros Hd Hr.
    unfold ResultsPanel.droughtStatus, ResultsPanel.droughtData,
      ResultsPanel.rainfallData.
    rewrite Hd, Hr. reflexivity.
  - intros H. unfold ResultsPanel.landcoverStats, ResultsPanel.landcover.
    rewrite H. reflexivity.
  - intros H.
    unfold ResultsPanel.rainTotal, ResultsPanel.rainfallStats,
      ResultsPanel.rainfallData.
    rewrite H. reflexivity.
Qed.

(** C8 at the result with no section at all. *)
Lemma classifier_tolerates_absence_witness :
  let nothing := Field.result None None None None in
  ResultsPanel.ndviStatus nothing = Vegetation.Poor /\
  ResultsPanel.droughtStatus nothing = DroughtClass.Unknown /\
  ResultsPanel.landcoverStats nothing = [] /\
  ResultsPanel.rainTotal nothing = ResultsPanel.RainNA.
Proof.
  cbn zeta.
  pose proof (classifier_tolerates_absence (Field.result None None None None))
    as (_ & H1 & H2 & H3 & H4).
  exact (conj (H1 eq_refl)
           (conj (H2 eq_refl eq_refl) (conj (H3 eq_refl) (H4 eq_refl)))).
Defined.

(** Every class of the table has a name, a color and a style that are not
    empty, so [LANDCOVER_CLASSES[code]?.name || ...] is the name of the
    table. *)
Lemma LANDCOVER_CLASSES_truthy (code : N) (c : ResultsPanel.LandcoverClass.t) :
  ResultsPanel.lookup ResultsPanel.LANDCOVER_CLASSES code = Some c ->
  JS.truthy_str (ResultsPanel.LandcoverClass.name c) = true /\
  JS.truthy_str (ResultsPanel.LandcoverClass.color c) = true /\
  JS.truthy_str (ResultsPanel.LandcoverClass.class c) = true.
Proof.
  unfold ResultsPanel.LANDCOVER_CLASSES. cbn [ResultsPanel.lookup].
  repeat (match goal with
          | |- context [(?k =? code)%N] => destruct (k =? code)%N
          end; [intros [= <-]; repeat split; reflexivity|]).
  discriminate.
Qed.

(** The percent of a pixel count is a number. *)
Lemma percentOf_not_nan (r : Api.AnalysisResult) (entry : N * float) :
  Breakdown.isCount (snd entry) ->
  is_nan (Breakdown.percentOf (ResultsPanel.landcoverEntry r entry)) = false.
Proof.
  intros [H0 Hinf]. destruct entry as [code count]. cbn [snd] in H0, Hinf.
  unfold Breakdown.percentOf, ResultsPanel.landcoverEntry.
  cbn [ResultsPanel.Stat.percent].
  destruct (0 <? ResultsPanel.totalPixels r)%float eqn:Ht;
    cbn [ResultsPanel.percentNumber]; [|reflexivity].
  apply Number_toFixed_not_nan, mul_100_not_nan, div_not_nan; assumption.
Qed.

(** C3. The land cover breakdown.  The total is the sum of the counts,
    taken in the order of the mapping from 0 (so 0 for an empty mapping).
    An entry's percent is [count / total * 100] rounded to one decimal
    ([toFixed(1)], whose digits are the nearest ones), or the number 0 when
    the total is not above 0, so that no division by zero shows; with pixel
    counts every percent is a number.  A code of the table gets the name
    and color of the table, any other the name "Class " followed by the
    code and the color #64748b.  The entries are sorted in descending order
    of percent, equal percents in the order of the mapping, and the first
    five are kept, the rest dropped. *)
Theorem landcover_breakdown (r : Api.AnalysisResult) :
  let mapping := ResultsPanel.landcover r in
  let total := ResultsPanel.totalPixels r in
  let entries := map (ResultsPanel.landcoverEntry r) mapping in
  total = fold_left (fun sum count => (sum + count)%float)
                    (map snd mapping) 0%float /\
  (forall code count,
     let e := ResultsPanel.landcoverEntry r (code, count) in
     ResultsPanel.Stat.code e = code /\
     ResultsPanel.Stat.percent e
     = (if (0 <? total)%float
        then ResultsPanel.PercentText
               (JS.toFixed (count / total * 100)%float 1)
        else ResultsPanel.PercentZero) /\
     match ResultsPanel.lookup ResultsPanel.LANDCOVER_CLASSES code with
     | Some c =>
         ResultsPanel.Stat.name e = ResultsPanel.LandcoverClass.name c /\
         ResultsPanel.Stat.color e = ResultsPanel.LandcoverClass.color c
     | None =>
         ResultsPanel.Stat.name e = "Class " ++ JS.digits_of code /\
         ResultsPanel.Stat.color e = "#64748b"
     end) /\
  (forall x neg n, JS.toFixed x 1 = JS.Dec neg n 1 ->
     (2 * Z.of_N n * 2 ^ 1074
      <= 20 * Z.abs (JS.value x) + 2 ^ 1074
      < 2 * (Z.of_N n + 1) * 2 ^ 1074)%Z) /\
  List.length (ResultsPanel.landcoverStats r)
  = Nat.min 5 (List.length mapping) /\
  (Forall (fun entry => Breakdown.isCount (snd entry)) mapping ->
   Forall (fun e => is_nan (Breakdown.percentOf e) = false) entries /\
   exists sorted,
     Breakdown.stableDescending entries sorted /\
     ResultsPanel.landcoverStats r = firstn 5 sorted).
Proof.
  cbn zeta.
  split; [reflexivity|]. split; [|split; [|split]].
  - intros code count. unfold ResultsPanel.landcoverEntry.
    cbn [ResultsPanel.Stat.code ResultsPanel.Stat.percent
         ResultsPanel.Stat.name ResultsPanel.Stat.color].
    split; [reflexivity|]. split; [reflexivity|].
    destruct (ResultsPanel.lookup ResultsPanel.LANDCOVER_CLASSES code)
      as [c | ] eqn:Hc; cbn [option_map JS.or_str]; [|split; reflexivity].
    destruct (LANDCOVER_CLASSES_truthy code c Hc) as (-> & -> & _).
    split; reflexivity.
  - intros x neg n H. pose proof (toFixed_nearest x 1 neg n H) as K.
    change (2 * 10 ^ Z.of_nat 1)%Z with 20%Z in K. exact K.
  - unfold ResultsPanel.landcoverStats.
    rewrite length_firstn.
    change ResultsPanel.byPercentDesc with (JS.descending Breakdown.percentOf).
    rewrite (Permutation_length (sort_permutation Breakdown.percentOf _)).
    rewrite length_map. reflexivity.
  - intros Hcounts.
    assert (Hnum : Forall (fun e => is_nan (Breakdown.percentOf e) = false)
                     (map (ResultsPanel.landcoverEntry r)
                          (ResultsPanel.landcover r))).
    { rewrite Forall_map. eapply Forall_impl; [|exact Hcounts].
      intros entry. apply percentOf_not_nan. }
    split; [exact Hnum|].
    exists (JS.sort ResultsPanel.byPercentDesc
              (map (ResultsPanel.landcoverEntry r) (ResultsPanel.landcover r))).
    split; [|reflexivity].
    change ResultsPanel.byPercentDesc with (JS.descending Breakdown.percentOf).
    split; [apply sort_permutation|]. split; [|intros k; apply sort_stable].
    apply sort_sorted. exact Hnum.
Qed.

(** C3 at a mapping of seven classes, two pairs of which tie: the counts
    are pixel counts, so the breakdown is the first five of the entries in
    stable descending order; they are Cropland 68.4, Water 17.1, Shrubland
    4.3, Grassland 4.3 and "Class 7" 2.6. *)
Lemma landcover_breakdown_witness :
  let mapping :=
    [(7%N, 3%float); (10%N, 1%float); (20%N, 5%float); (30%N, 5%float);
     (40%N, 80%float); (80%N, 20%float); (95%N, 3%float)] in
  let r := Field.result None None None (Some mapping) in
  Forall (fun entry => Breakdown.isCount (snd entry)) mapping /\
  (exists sorted,
     Breakdown.stableDescending
       (map (ResultsPanel.landcoverEntry r) mapping) sorted /\
     ResultsPanel.landcoverStats r = firstn 5 sorted) /\
  map (fun e => (ResultsPanel.Stat.name e,
                 match ResultsPanel.Stat.percent e with
                 | ResultsPanel.PercentText s => JS.render s
                 | ResultsPanel.PercentZero => Some "0"
                 end))
      (ResultsPanel.landcoverStats r)
  = [("Cropland", Some "68.4"); ("Water", Some "17.1");
     ("Shrubland", Some "4.3"); ("Grassland", Some "4.3");
     ("Class 7", Some "2.6")].
Proof.
  cbn zeta.
  assert (H : Forall (fun entry => Breakdown.isCount (snd entry))
                [(7%N, 3%float); (10%N, 1%float); (20%N, 5%float);
                 (30%N, 5%float); (40%N, 80%float); (80%N, 20%float);
                 (95%N, 3%float)])
    by (repeat constructor).
  split; [exact H|]. split; [|vm_compute; reflexivity].
  pose proof (landcover_breakdown
                (Field.result None None None
                   (Some [(7%N, 3%float); (10%N, 1%float); (20%N, 5%float);
                          (30%N, 5%float); (40%N, 80%float);
                          (80%N, 20%float); (95%N, 3%float)])))
    as (_ & _ & _ & _ & K).
  exact (proj2 (K H)).
Defined.

(** * The area selector *)

(** The loop pushes the points for [i], [i + 1], ... in turn. *)
Lemma circleLoop_map (Math : JS.MathObject) (center : App.LatLng)
  (radius : float) (numPoints todo : nat) :
  forall (i : nat) (points : list App.LatLng),
    App.circleLoop Math center radius numPoints todo i points
    = (points
       ++ map (App.circlePoint Math center radius numPoints) (seq i todo))%list.
Proof.
  induction todo as [ | todo IH]; intros i points; cbn [App.circleLoop seq map].
  - symmetry. apply app_nil_r.
  - rewrite IH, <- app_assoc. reflexivity.
Qed.

(** For each of the 32 turns the angle of the source, [(i / 32) * 2 * PI],
    is the very number [2 * PI * i / 32]. *)
Lemma circle_angles (i : nat) :
  (i < 32)%nat ->
  ((JS.of_nat i / JS.of_nat 32) * 2 * JS.PI)%float
  = (2 * JS.PI * JS.of_nat i / 32)%float.
Proof.
  intros H.
  assert (K : forallb
                (fun i => PrimFloat.Leibniz.eqb
                            ((JS.of_nat i / JS.of_nat 32) * 2 * JS.PI)%float
                            (2 * JS.PI * JS.of_nat i / 32)%float)
                (seq 0 32) = true) by (vm_compute; reflexivity).
  rewrite forallb_forall in K. apply FloatAxioms.Leibniz.eqb_spec, K, in_seq. lia.
Qed.

(** C4. Placing a circle.  A click at [center] in circle mode makes the
    boundary the 32 points [i = 0 .. 31] with [angle = 2 * PI * i / 32],
    [lat = center.lat + (r / 111320) * cos(angle)] and
    [lng = center.lng + (r / (111320 * cos(center.lat * PI / 180))) *
    sin(angle)], where [r] is the chosen radius.  The new boundary takes
    the place of the old one whatever that was, and it passes the guard of
    the analysis.  (This holds for every radius, so for every [r > 0].) *)
Theorem place_circle (Math : JS.MathObject) (center : App.LatLng)
  (s : App.State) :
  let r := App.circleRadius s in
  let s' :=
    fst (App.handleMapClick Math center (App.setDrawMode (Some App.DrawMode.circle) s)) in
  let vertex (i : nat) :=
    let angle := (2 * JS.PI * JS.of_nat i / 32)%float in
    {| App.lat :=
         (App.lat center + (r / 111320) * JS.cos Math angle)%float;
       App.lng :=
         (App.lng center
          + (r / (111320 * JS.cos Math (App.lat center * JS.PI / 180)))
            * JS.sin Math angle)%float |} in
  App.polygonPath s' = map vertex (seq 0 32) /\
  List.length (App.polygonPath s') = 32%nat /\
  App.circleCenter s' = Some center /\
  (3 <=? List.length (App.polygonPath s'))%nat = true /\
  exists geometry,
    App.handleAnalyze_submit s'
    = (App.setError None (App.setIsLoading true s'),
       [App.Post "/analyze" geometry 120000], Some geometry).
Proof.
  cbn zeta.
  assert (E : App.polygonPath
                (fst (App.handleMapClick Math center
                        (App.setDrawMode (Some App.DrawMode.circle) s)))
              = map (fun i =>
                       {| App.lat :=
                            (App.lat center
                             + (App.circleRadius s / 111320)
                               * JS.cos Math (2 * JS.PI * JS.of_nat i / 32))%float;
                          App.lng :=
                            (App.lng center
                             + (App.circleRadius s
                                / (111320
                                   * JS.cos Math (App.lat center * JS.PI / 180)))
                               * JS.sin Math (2 * JS.PI * JS.of_nat i / 32))%float |})
                    (seq 0 32)).
  { cbn [App.handleMapClick App.setDrawMode App.drawMode fst App.polygonPath
         App.setShowDrawOptions App.setPolygonPath App.setCircleCenter
         App.circleRadius].
    unfold App.circleToPolygon. rewrite circleLoop_map. cbn [app].
    apply map_ext_in. intros i Hi. apply in_seq in Hi.
    unfold App.circlePoint. rewrite circle_angles by lia. reflexivity. }
  split; [exact E|]. split; [rewrite E, length_map, length_seq; reflexivity|].
  split; [reflexivity|].
  assert (L : List.length
                (App.polygonPath
                   (fst (App.handleMapClick Math center
                           (App.setDrawMode (Some App.DrawMode.circle) s)))) = 32%nat)
    by (rewrite E, length_map, length_seq; reflexivity).
  split; [rewrite L; reflexivity|].
  unfold App.handleAnalyze_submit. rewrite L. cbn [Nat.ltb Nat.leb].
  eexists. reflexivity.
Qed.

(** C5. The analysis request.  With three vertices or more the request
    carries one ring: the vertices in order, each as the pair
    [(longitude, latitude)], then the first pair once more; so the ring has
    one pair more than there are vertices, and its first and last pairs are
    the same. *)
Theorem analysis_request_ring (s : App.State) :
  (3 <= List.length (App.polygonPath s))%nat ->
  let path := App.polygonPath s in
  exists (first : App.LatLng) (ring : list (float * float)),
    App.handleAnalyze_submit s
    = (App.setError None (App.setIsLoading true s),
       [App.Post "/analyze"
          {| App.type := "Polygon"; App.coordinates := [ring] |} 120000],
       Some {| App.type := "Polygon"; App.coordinates := [ring] |}) /\
    hd_error path = Some first /\
    ring = (map (fun point => (App.lng point, App.lat point)) path
            ++ [(App.lng first, App.lat first)])%list /\
    List.length ring = S (List.length path) /\
    nth_error ring 0 = Some (App.lng first, App.lat first) /\
    nth_error ring (List.length path) = Some (App.lng first, App.lat first).
Proof.
  intros H. cbn zeta. unfold App.handleAnalyze_submit.
  destruct (Nat.ltb_spec (List.length (App.polygonPath s)) 3) as [L | _];
    [lia|].
  cbn [App.polygonPath App.setError App.setIsLoading].
  destruct (App.polygonPath s) as [ | first rest] eqn:E; [cbn in H; lia|].
  exists first.
  exists (map (fun point => (App.lng point, App.lat point)) (first :: rest)
          ++ [(App.lng first, App.lat first)])%list.
  split; [reflexivity|]. split; [reflexivity|]. split; [reflexivity|].
  split; [rewrite length_app, length_map; cbn; lia|].
  split; [reflexivity|].
  rewrite nth_error_app2 by (rewrite length_map; lia).
  rewrite length_map, Nat.sub_diag. reflexivity.
Qed.

(** C5 at a triangle. *)
Lemma analysis_request_ring_witness :
  let a := {| App.lat := 1%float; App.lng := 2%float |} in
  let b := {| App.lat := 3%float; App.lng := 4%float |} in
  let c := {| App.lat := 5%float; App.lng := 6%float |} in
  (3 <= List.length
          (App.polygonPath (App.setPolygonPath [a; b; c] App.initialState)))%nat
  /\ exists ring,
       snd (App.handleAnalyze_submit
              (App.setPolygonPath [a; b; c] App.initialState))
       = Some {| App.type := "Polygon"; App.coordinates := [ring] |} /\
       ring = [(2, 1); (4, 3); (6, 5); (2, 1)]%float.
Proof.
  cbn zeta. split; [cbn; lia|].
  destruct (analysis_request_ring
              (App.setPolygonPath
                 [{| App.lat := 1%float; App.lng := 2%float |};
                  {| App.lat := 3%float; App.lng := 4%float |};
                  {| App.lat := 5%float; App.lng := 6%float |}]
                 App.initialState))
    as (first & ring & Hs & Hf & Hr & _); [cbn; lia|].
  exists ring. split; [rewrite Hs; reflexivity|].
  cbn in Hf. injection Hf as <-. exact Hr.
Defined.

(** C7. Too small a selection.  With fewer than three vertices
    [handleAnalyze] sets the error "Please select a farm area first." and
    does nothing else: no request leaves, whatever the service would
    answer, and every other cell of the state, the boundary and the stored
    result among them, is what it was.  The panel shows the error. *)
Theorem analyze_needs_three_vertices
  (backend : App.Geometry -> Axios.Outcome) (s : App.State) :
  (List.length (App.polygonPath s) < 3)%nat ->
  let s' := fst (App.handleAnalyze backend s) in
  App.handleAnalyze backend s
  = (App.setError (Some "Please select a farm area first.") s, []) /\
  App.handleAnalyze_submit s
  = (App.setError (Some "Please select a farm area first.") s, [], None) /\
  App.error s' = Some "Please select a farm area first." /\
  App.panel s' = ResultsPanel.ErrorCard "Please select a farm area first." /\
  App.polygonPath s' = App.polygonPath s /\
  App.polygon s' = App.polygon s /\
  App.circleCenter s' = App.circleCenter s /\
  App.circleRadius s' = App.circleRadius s /\
  App.drawMode s' = App.drawMode s /\
  App.analysisResults s' = App.analysisResults s /\
  App.isLoading s' = App.isLoading s.
Proof.
  intros H. cbn zeta.
  assert (E : App.handleAnalyze_submit s
              = (App.setError (Some "Please select a farm area first.") s,
                 [], None)).
  { unfold App.handleAnalyze_submit.
    destruct (Nat.ltb_spec (List.length (App.polygonPath s)) 3); [reflexivity|lia]. }
  unfold App.handleAnalyze. rewrite E. repeat split.
Qed.

(** C7 at the state the application starts in, where nothing is selected. *)
Lemma analyze_needs_three_vertices_witness :
  (List.length (App.polygonPath App.initialState) < 3)%nat /\
  App.handleAnalyze (fun _ => Axios.Fulfilled {| Axios.data := None |})
                    App.initialState
  = (App.setError (Some "Please select a farm area first.") App.initialState,
     []).
Proof.
  split; [cbn; lia|].
  apply (analyze_needs_three_vertices
           (fun _ => Axios.Fulfilled {| Axios.data := None |})
           App.initialState).
  cbn. lia.
Defined.

(** C9. A failed request.  When the promise is rejected (no answer, a
    timeout, or an answer that is not a success) the error shown is the
    [error] text of the response body when there is one (an empty text
    counts as none), and "Failed to analyze the area. Please try again."
    otherwise.  The stored result is not touched by the failure, in
    whatever state the rejection arrives; nor is it when [handleAnalyze]
    runs from its start to a rejection. *)
Theorem failed_request (err : Axios.Error) (s : App.State) :
  let s' := fst (App.handleAnalyze_settle (Axios.Rejected err) s) in
  (forall message, App.serverError err = Some message -> message <> "" ->
     App.error s' = Some message /\
     App.panel s' = ResultsPanel.ErrorCard message) /\
  (App.serverError err = None \/ App.serverError err = Some "" ->
   App.error s' = Some App.genericFailure /\
   App.panel s' = ResultsPanel.ErrorCard App.genericFailure) /\
  App.analysisResults s' = App.analysisResults s /\
  App.polygonPath s' = App.polygonPath s /\
  App.isLoading s' = false /\
  (forall backend geometry,
     App.handleAnalyze_submit s
     = (App.setError None (App.setIsLoading true s),
        [App.Post "/analyze" geometry 120000], Some geometry) ->
     backend geometry = Axios.Rejected err ->
     App.analysisResults (fst (App.handleAnalyze backend s))
     = App.analysisResults s /\
     App.error (fst (App.handleAnalyze backend s))
     = Some (JS.or_str (App.serverError err) App.genericFailure)).
Proof.
  cbn zeta. unfold App.panel.
  cbn [App.handleAnalyze_settle fst App.error App.analysisResults
       App.polygonPath App.isLoading App.setError App.setIsLoading].
  split; [|split].
  - intros message -> Hm. cbn [JS.or_str].
    pose proof (proj2 (truthy_str_true message) Hm) as T. rewrite T.
    split; [reflexivity|]. cbn [ResultsPanel.ResultsPanel]. rewrite T. reflexivity.
  - intros [-> | ->]; split; reflexivity.
  - split; [reflexivity|]. split; [reflexivity|]. split; [reflexivity|].
    intros backend geometry Hs Hb. unfold App.handleAnalyze.
    rewrite Hs, Hb. split; reflexivity.
Qed.

(** C9 at a rejection that carries the text "Area too large", at one with
    no response at all, and on a whole run of [handleAnalyze] over a
    triangle while a result is stored. *)
Lemma failed_request_witness :
  let withText :=
    {| Axios.response :=
         Some {| Axios.body :=
                   Some {| Axios.error := Some "Area too large" |} |} |} in
  let noResponse := {| Axios.response := None |} in
  let stored := Field.result (Some 0.5%float) None None None in
  let triangle :=
    [{| App.lat := 1%float; App.lng := 2%float |};
     {| App.lat := 3%float; App.lng := 4%float |};
     {| App.lat := 5%float; App.lng := 6%float |}] in
  let s :=
    App.setAnalysisResults (Some stored)
      (App.setPolygonPath triangle App.initialState) in
  App.error (fst (App.handleAnalyze_settle (Axios.Rejected withText) s))
  = Some "Area too large" /\
  App.error (fst (App.handleAnalyze_settle (Axios.Rejected noResponse) s))
  = Some "Failed to analyze the area. Please try again." /\
  App.analysisResults
    (fst (App.handleAnalyze (fun _ => Axios.Rejected noResponse) s))
  = Some stored.
Proof.
  cbn zeta.
  set (withText :=
         {| Axios.response :=
              Some {| Axios.body :=
                        Some {| Axios.error := Some "Area too large" |} |} |}).
  set (noResponse := {| Axios.response := None |}).
  set (s := App.setAnalysisResults _ _).
  pose proof (failed_request withText s) as (H & _).
  split; [apply (H "Area too large" eq_refl); discriminate|]. clear H.
  pose proof (failed_request noResponse s) as (_ & H & _ & _ & _ & K).
  split; [apply H; left; reflexivity|].
  refine (proj1 (K (fun _ => Axios.Rejected noResponse) _ eq_refl eq_refl)).
Defined.

(** ** Sessions *)

Lemma circleToPolygon_length (Math : JS.MathObject) (center : App.LatLng)
  (radius : float) (numPoints : nat) :
  List.length (App.circleToPolygon Math center radius numPoints) = numPoints.
Proof.
  unfold App.circleToPolygon. rewrite circleLoop_map. cbn [app].
  rewrite length_map, length_seq. reflexivity.
Qed.

(** [hasBoundary] read on the cells. *)
Lemma no_boundary (s : App.State) :
  App.hasBoundary s = false <-> App.polygon s = None /\ App.polygonPath s = [].
Proof.
  unfold App.hasBoundary.
  destruct (App.polygon s), (App.polygonPath s); cbn;
    intuition (discriminate || auto).
Qed.

(** [getArray().map(latLng => ({ lat: latLng.lat(), lng: latLng.lng() }))]
    copies the path. *)
Lemma path_copy (path : list App.LatLng) :
  map (fun latLng => {| App.lat := App.lat latLng; App.lng := App.lng latLng |})
      path = path.
Proof.
  induction path as [ | [a b] path IH]; cbn [map App.lat App.lng];
    [reflexivity|]. rewrite IH. reflexivity.
Qed.

Lemma drawOptionsShown_cells (s : App.State) :
  AppJSX.drawOptionsShown s = true ->
  App.polygon s = None /\ App.polygonPath s = [] /\ App.drawMode s = None.
Proof.
  unfold AppJSX.drawOptionsShown. intros H.
  apply andb_true_iff in H. destruct H as [H D].
  apply andb_true_iff in H. destruct H as [_ H].
  apply negb_true_iff in H. apply no_boundary in H.
  destruct (App.drawMode s); [discriminate|]. tauto.
Qed.

Lemma circle_path_not_empty (Math : JS.MathObject) (s : App.State)
  (center : App.LatLng) (radius : float) :
  App.polygonPath s = App.circleToPolygon Math center radius 32 ->
  App.polygonPath s <> [].
Proof.
  intros E N. pose proof (circleToPolygon_length Math center radius 32) as L.
  rewrite <- E, N in L. discriminate.
Qed.

(** Unfolds the setters and the cells they set. *)
Ltac cells :=
  cbn [App.userLocation App.mapCenter App.polygon App.polygonPath
       App.circleCenter App.circleRadius App.drawMode App.showDrawOptions
       App.isLoading App.analysisResults App.error App.setPolygon
       App.setPolygonPath App.setCircleCenter App.setCircleRadius
       App.setDrawMode App.setShowDrawOptions App.setIsLoading
       App.setAnalysisResults App.setError App.setUserLocation
       App.setMapCenter fst snd Session.ui Session.inFlight Session.posted
       flat_map app App.handleEnableLocation App.handlePolygonComplete
       App.handleClearBoundary App.handleAnalyze_settle Session.without];
  rewrite ?app_nil_r.

(** Every event that can happen keeps the invariant. *)
Lemma invariant_fire (Math : JS.MathObject) (w : Session.World)
  (e : Session.Event) :
  Session.invariant Math w -> Session.enabled w e = true ->
  Session.invariant Math (Session.fire Math e w).
Proof.
  destruct w as [s fl]. unfold Session.invariant, Session.fire, Session.enabled.
  cbn [Session.ui Session.inFlight].
  intros (Ha & Hb & Hd & He & Hf) En.
  destruct e; cbn [Session.handler].
  - destruct geolocation; cells; auto 10.
  - unfold App.handleMapClick.
    destruct (App.drawMode s) as [[ | ] | ] eqn:D; cells; rewrite ?D; auto 10.
    destruct Ha as [Hp _]; [discriminate|]. repeat split; auto; congruence.
  - cells. auto 10.
  - cells. auto 10.
  - apply andb_true_iff in En. destruct En as [En Hn].
    apply drawOptionsShown_cells in En. destruct En as (P & Q & D).
    apply Nat.ltb_lt in Hn.
    destruct (nth_error AppJSX.radiusButtons button) as [o | ] eqn:N.
    + cells. split; [auto|]. split.
      * destruct (App.circleCenter s); [|exact Hb].
        destruct Hb as [_ Hb].
        destruct (circle_path_not_empty Math s _ _ Hb Q).
      * split; [auto|]. split; [|auto].
        apply in_map, nth_error_In with (n := button), N.
    + apply nth_error_None in N. lia.
  - apply drawOptionsShown_cells in En. destruct En as (P & Q & D).
    cells. auto 10.
  - unfold AppJSX.useMyLocationShown in En. apply andb_true_iff in En.
    destruct En as [En U].
    apply drawOptionsShown_cells in En. destruct En as (P & Q & D).
    unfold App.handleUseMyLocation.
    destruct (App.userLocation s) eqn:UL; [|discriminate].
    cells. rewrite ?UL. repeat split; auto; congruence.
  - apply drawOptionsShown_cells in En. destruct En as (P & Q & D).
    cells. auto 10.
  - unfold AppJSX.drawingManagerShown in En.
    destruct (App.drawMode s) as [[ | ] | ] eqn:D; try discriminate.
    destruct Ha as [P Q]; [discriminate|].
    cells. rewrite path_copy.
    split; [congruence|]. split; [|auto].
    destruct (App.circleCenter s); [|reflexivity].
    destruct Hb as [_ Hb]. destruct (circle_path_not_empty Math s _ _ Hb Q).
  - unfold AppJSX.instructionsShown in En.
    destruct (App.drawMode s) eqn:D; [|discriminate].
    destruct Ha as [P Q]; [discriminate|].
    unfold App.handleCancelDrawing. rewrite P. cells. rewrite ?P, ?Q.
    split; [auto|]. rewrite P, Q in Hb. auto.
  - unfold AppJSX.analyzeEnabled in En. apply andb_true_iff in En.
    destruct En as [En L]. apply negb_true_iff in L.
    unfold AppJSX.boundaryButtonsShown in En. apply andb_true_iff in En.
    destruct En as [_ D]. destruct (App.drawMode s) eqn:DM; [discriminate|].
    destruct Hd as [[F _] | (g & _ & F)]; [|congruence]. subst fl.
    unfold App.handleAnalyze_submit.
    destruct (List.length (App.polygonPath s) <? 3)%nat; cells; rewrite ?DM.
    + split; [congruence|]. split; [exact Hb|]. auto.
    + split; [congruence|]. split; [exact Hb|].
      split; [right; eexists; split; reflexivity|]. auto.
  - cells. destruct (App.polygon s); cells;
      (split; [auto|]); (split; [reflexivity|]); auto.
  - cells. auto 10.
  - apply Nat.ltb_lt in En.
    destruct Hd as [[F _] | (g & F & _)]; subst fl; [cbn in En; lia|].
    destruct request as [ | request]; [|cbn in En; lia].
    destruct outcome; cells; auto 10.
Qed.

Lemma reachable_invariant (Math : JS.MathObject) (w : Session.World) :
  Session.reachable Math w -> Session.invariant Math w.
Proof.
  induction 1 as [ | w e _ IH En]; [|exact (invariant_fire Math w e IH En)].
  unfold Session.invariant. cbn.
  split; [congruence|]. split; [reflexivity|]. split; [auto|].
  split; [|reflexivity]. right. left. reflexivity.
Qed.

(** A list of events that are allowed in their turn leads from one world
    of a session to another. *)
Lemma reachable_run (Math : JS.MathObject) (events : list Session.Event) :
  forall w : Session.World,
    Session.reachable Math w -> Session.allowed Math events w = true ->
    Session.reachable Math (Session.run Math events w).
Proof.
  induction events as [ | e events IH]; intros w R A; [exact R|].
  cbn [Session.allowed] in A. apply andb_true_iff in A. destruct A as [En A].
  apply (IH (Session.fire Math e w)); [|exact A].
  apply Session.reachable_fire; assumption.
Qed.





(** * The session *)

(** X1. One request at a time.  In every world of a session at most one
    analysis request is away, and [isLoading] is on exactly while one is:
    the Analyze button is disabled from the click to the answer. *)
Theorem one_request_at_a_time (Math : JS.MathObject) (w : Session.World) :
  Session.reachable Math w ->
  (List.length (Session.inFlight w) <= 1)%nat /\
  (App.isLoading (Session.ui w) = true <-> Session.inFlight w <> []) /\
  (Session.inFlight w <> [] ->
   Session.enabled w Session.AnalyzeFarm = false).
Proof.
  intros R. apply reachable_invariant in R.
  destruct R as (_ & _ & [[F L] | (g & F & L)] & _); rewrite F.
  - split; [cbn; lia|]. split; [|congruence].
    rewrite L. split; [discriminate | congruence].
  - split; [cbn; lia|]. split; [split; [discriminate | intros _; exact L]|].
    intros _. unfold Session.enabled, AppJSX.analyzeEnabled.
    cbn [Session.ui]. rewrite L. apply andb_false_r.
Qed.

Lemma one_request_at_a_time_witness :
  let point (a b : float) := {| App.lat := a; App.lng := b |} in
  let w :=
    Session.run Session.seriesMath
      [Session.SelectFarmArea; Session.ClickOnMapToPlace;
       Session.MapClick (point 7 8)%float; Session.AnalyzeFarm]
      Session.start in
  Session.reachable Session.seriesMath w /\
  (List.length (Session.inFlight w) <= 1)%nat /\
  Session.enabled w Session.AnalyzeFarm = false.
Proof.
  cbn zeta.
  set (w := Session.run _ _ _).
  assert (R : Session.reachable Session.seriesMath w)
    by (apply reachable_run; [apply Session.reachable_start | reflexivity]).
  split; [exact R|].
  pose proof (one_request_at_a_time Session.seriesMath w R) as (L & _ & E).
  split; [exact L|]. apply E. vm_compute. discriminate.
Defined.

(** X2. While a drawing mode is on, nothing is selected: no polygon is
    drawn, the path is empty and there is no circle.  So the Cancel button
    never takes a polygon off the map: it only leaves the drawing mode and
    closes the draw options. *)
Theorem cancel_detaches_nothing (Math : JS.MathObject) (w : Session.World) :
  Session.reachable Math w ->
  Session.enabled w Session.CancelDrawing = true ->
  let s := Session.ui w in
  App.hasBoundary s = false /\
  App.circleCenter s = None /\
  App.handleCancelDrawing s
  = (App.setShowDrawOptions false (App.setDrawMode None s), []).
Proof.
  intros R En. cbn zeta. apply reachable_invariant in R.
  destruct R as (Ha & Hb & _).
  unfold Session.enabled, AppJSX.instructionsShown in En.
  destruct (App.drawMode (Session.ui w)) eqn:D; [|discriminate].
  destruct Ha as [P Q]; [discriminate|].
  split; [apply no_boundary; auto|]. split.
  - destruct (App.circleCenter (Session.ui w)); [|reflexivity].
    destruct Hb as [_ Hb].
    destruct (circle_path_not_empty Math _ _ _ Hb Q).
  - unfold App.handleCancelDrawing. rewrite P. reflexivity.
Qed.

Lemma cancel_detaches_nothing_witness :
  let w :=
    Session.run Session.seriesMath
      [Session.SelectFarmArea; Session.StartDrawingPolygon] Session.start in
  Session.enabled w Session.CancelDrawing = true /\
  App.hasBoundary (Session.ui w) = false /\
  snd (App.handleCancelDrawing (Session.ui w)) = [].
Proof.
  cbn zeta.
  set (w := Session.run _ _ _).
  assert (R : Session.reachable Session.seriesMath w)
    by (apply reachable_run; [apply Session.reachable_start | reflexivity]).
  split; [reflexivity|].
  pose proof (cancel_detaches_nothing Session.seriesMath w R eq_refl)
    as (B & _ & C).
  split; [exact B|]. rewrite C. reflexivity.
Defined.

(** X3. The circle on the map is the boundary that is analysed.  In every
    world of a session with a circle, the path is the 32 points of that
    circle at the radius the page holds (the radius buttons are not there
    while a boundary is selected), no polygon is drawn beside it, and the
    Analyze guard of three vertices passes. *)
Theorem circle_is_the_boundary (Math : JS.MathObject) (w : Session.World)
  (center : App.LatLng) :
  Session.reachable Math w ->
  App.circleCenter (Session.ui w) = Some center ->
  let s := Session.ui w in
  App.polygonPath s = App.circleToPolygon Math center (App.circleRadius s) 32 /\
  List.length (App.polygonPath s) = 32%nat /\
  App.polygon s = None /\
  App.drawMode s = None /\
  (forall button, Session.enabled w (Session.PickRadius button) = false).
Proof.
  intros R C. cbn zeta. apply reachable_invariant in R.
  destruct R as (Ha & Hb & _). rewrite C in Hb. destruct Hb as [P E].
  pose proof (circle_path_not_empty Math _ _ _ E) as NE.
  split; [exact E|]. split; [rewrite E; apply circleToPolygon_length|].
  split; [exact P|]. split.
  - destruct (App.drawMode (Session.ui w)); [|reflexivity].
    destruct Ha as [_ Q]; [discriminate|]. contradiction.
  - intros button. unfold Session.enabled.
    destruct (AppJSX.drawOptionsShown (Session.ui w)) eqn:D; [|reflexivity].
    apply drawOptionsShown_cells in D. destruct D as (_ & Q & _).
    contradiction.
Qed.

Lemma circle_is_the_boundary_witness :
  let center := {| App.lat := 7%float; App.lng := 8%float |} in
  let w :=
    Session.run Session.seriesMath
      [Session.SelectFarmArea; Session.PickRadius 2;
       Session.ClickOnMapToPlace; Session.MapClick center]
      Session.start in
  App.circleCenter (Session.ui w) = Some center /\
  App.circleRadius (Session.ui w) = 500%float /\
  App.polygonPath (Session.ui w)
  = App.circleToPolygon Session.seriesMath center 500 32.
Proof.
  cbn zeta.
  set (center := {| App.lat := 7%float; App.lng := 8%float |}).
  set (w := Session.run _ _ _).
  assert (R : Session.reachable Session.seriesMath w)
    by (apply reachable_run; [apply Session.reachable_start | reflexivity]).
  split; [reflexivity|]. split; [reflexivity|].
  exact (proj1 (circle_is_the_boundary Session.seriesMath w center R eq_refl)).
Defined.



(** X5. The radius is always one of the four presets, 100, 250, 500 or
    1000 metres: the option ['custom'] has no button, and nothing else
    sets the radius. *)
Theorem radius_is_a_preset (Math : JS.MathObject) (w : Session.World) :
  Session.reachable Math w ->
  In (App.circleRadius (Session.ui w)) [100; 250; 500; 1000]%float.
Proof.
  intros R. apply reachable_invariant in R.
  destruct R as (_ & _ & _ & H & _). exact H.
Qed.

Lemma radius_is_a_preset_witness :
  let w :=
    Session.run Session.seriesMath
      [Session.SelectFarmArea; Session.PickRadius 3; Session.PickRadius 0]
      Session.start in
  App.circleRadius (Session.ui w) = 100%float /\
  In (App.circleRadius (Session.ui w)) [100; 250; 500; 1000]%float.
Proof.
  cbn zeta.
  set (w := Session.run _ _ _).
  split; [reflexivity|].
  apply (radius_is_a_preset Session.seriesMath w).
  apply reachable_run; [apply Session.reachable_start | reflexivity].
Defined.



(** * The handlers of the area selector *)

(** X7. "Use My Location" is a click on the map at the user's location.
    Whenever the button is rendered the location is known, so the handler
    places the circle exactly as [handleMapClick] does in circle mode, with
    the same 32 points, and its message "Please enable location first ..."
    is never set. *)
Theorem use_my_location_is_a_click (Math : JS.MathObject) (s : App.State) :
  AppJSX.useMyLocationShown s = true ->
  exists location,
    App.userLocation s = Some location /\
    App.handleUseMyLocation Math s
    = App.handleMapClick Math location
        (App.setDrawMode (Some App.DrawMode.circle) s) /\
    App.circleCenter (fst (App.handleUseMyLocation Math s)) = Some location /\
    App.error (fst (App.handleUseMyLocation Math s)) = App.error s.
Proof.
  unfold AppJSX.useMyLocationShown. intros H.
  apply andb_true_iff in H. destruct H as [_ H].
  unfold App.handleUseMyLocation.
  destruct (App.userLocation s) as [location | ]; [|discriminate].
  exists location. repeat split.
Qed.

Lemma use_my_location_is_a_click_witness :
  let here := {| App.lat := 11%float; App.lng := 77%float |} in
  let s :=
    App.setShowDrawOptions true
      (App.setUserLocation (Some here) App.initialState) in
  AppJSX.useMyLocationShown s = true /\
  App.circleCenter (fst (App.handleUseMyLocation Session.seriesMath s))
  = Some here.
Proof.
  cbn zeta. split; [reflexivity|].
  destruct (use_my_location_is_a_click Session.seriesMath
              (App.setShowDrawOptions true
                 (App.setUserLocation
                    (Some {| App.lat := 11%float; App.lng := 77%float |})
                    App.initialState))
              eq_refl)
    as (location & U & _ & C & _).
  injection U as <-. exact C.
Defined.






(** * The report beside the badges *)

(** [x || 0] is never [NaN]. *)
Lemma or_num_not_nan (x : option float) : is_nan (JS.or_num x 0) = false.
Proof.
  destruct x as [v | ]; [|reflexivity]. cbn [JS.or_num].
  destruct (JS.truthy v) eqn:T; [|reflexivity].
  unfold JS.truthy in T. apply andb_true_iff in T.
  destruct T as [_ T]. apply negb_true_iff in T. exact T.
Qed.

(** The class of the header badge, by the three comparisons of
    [getNDVIStatus]. *)
Lemma headerBadge_cases (r : Api.AnalysisResult) :
  ResultsPanelJSX.headerBadge r
  = if (0.6 <=? ResultsPanel.ndviValue r)%float then "status-healthy"
    else if (0.4 <=? ResultsPanel.ndviValue r)%float then "status-healthy"
    else if (0.2 <=? ResultsPanel.ndviValue r)%float then "status-warning"
    else "status-critical".
Proof.
  unfold ResultsPanelJSX.headerBadge, ResultsPanel.ndviStatus,
    ResultsPanel.getNDVIStatus.
  destruct (0.6 <=? ResultsPanel.ndviValue r)%float; [reflexivity|].
  destruct (0.4 <=? ResultsPanel.ndviValue r)%float; [reflexivity|].
  destruct (0.2 <=? ResultsPanel.ndviValue r)%float; reflexivity.
Qed.

(** X11. The badge of the panel header follows the number the gauge
    shows, which is never [NaN] (an absent, zero or [NaN] [ndvi] counts 0):
    [status-healthy] from 0.4 on, [status-warning] from 0.2 up to 0.4,
    [status-critical] below 0.2. *)
Theorem header_badge_by_ndvi (r : Api.AnalysisResult) :
  let v := ResultsPanel.ndviValue r in
  is_nan v = false /\
  (ResultsPanelJSX.headerBadge r = "status-healthy"
   <-> (0.4 <=? v)%float = true) /\
  (ResultsPanelJSX.headerBadge r = "status-warning"
   <-> (0.2 <=? v)%float = true /\ (v <? 0.4)%float = true) /\
  (ResultsPanelJSX.headerBadge r = "status-critical"
   <-> (v <? 0.2)%float = true).
Proof.
  cbn zeta. rewrite headerBadge_cases.
  pose proof (or_num_not_nan (Api.ndvi r)) as N.
  fold (ResultsPanel.ndviValue r) in N.
  set (v := ResultsPanel.ndviValue r) in *. clearbody v.
  split; [exact N|].
  destruct is_nan_constants as (N6 & N4 & N2 & _).
  pose proof thresholds_increase as T.
  assert (L4 : (v <? 0.4)%float = negb (0.4 <=? v)%float).
  { destruct (0.4 <=? v)%float eqn:A; read_order A; cbn [negb].
    - apply ltb_false. right. right. lia.
    - apply ltb_true. destruct A as [A | [A | A]]; try congruence.
      repeat split; auto. }
  assert (L2 : (v <? 0.2)%float = negb (0.2 <=? v)%float).
  { destruct (0.2 <=? v)%float eqn:A; read_order A; cbn [negb].
    - apply ltb_false. right. right. lia.
    - apply ltb_true. destruct A as [A | [A | A]]; try congruence.
      repeat split; auto. }
  assert (M64 : (0.6 <=? v)%float = true -> (0.4 <=? v)%float = true).
  { intros A. read_order A. apply leb_true. repeat split; auto. lia. }
  assert (M42 : (0.4 <=? v)%float = true -> (0.2 <=? v)%float = true).
  { intros A. read_order A. apply leb_true. repeat split; auto. lia. }
  rewrite L4, L2. clear L4 L2 T N6 N4 N2 N.
  destruct (0.6 <=? v)%float; [rewrite (M64 eq_refl) in *|];
    destruct (0.4 <=? v)%float; try rewrite (M42 eq_refl) in *;
    destruct (0.2 <=? v)%float; cbn [negb];
    repeat split; intros; try reflexivity; try discriminate;
    try (destruct H; discriminate).
Qed.

(** [toFixed] of a number gives a numeral, or the number itself written
    out when it is infinite or as large as [1e21]; never ["NaN"]. *)
Lemma toFixed_number (x : float) (f : nat) :
  is_nan x = false ->
  match JS.toFixed x f with
  | JS.Dec _ _ f' => f' = f
  | JS.Str y => y = x /\ (abs x <? 1e21)%float = false
  end.
Proof.
  intros N. unfold JS.toFixed.
  pose proof (is_nan_Prim2SF x) as K. rewrite N in K.
  destruct (Prim2SF x) as [s | s | | s m e] eqn:E.
  - reflexivity.
  - split; [reflexivity|]. rewrite ltb_spec, abs_spec, E. reflexivity.
  - discriminate.
  - destruct (abs x <? 1e21)%float; [reflexivity | split; reflexivity].
Qed.

(** X12. The gauge and the yield card never show ["NaN"].  [ndvi] and
    [yield_prediction] go through [|| 0], so the gauge shows a numeral of
    three decimals and the yield card one of two, whatever the result
    holds (a value of [1e21] or more, or an infinite one, is written out as
    it is); an absent value shows as 0.000 and 0.00. *)
Theorem gauge_never_shows_nan (r : Api.AnalysisResult) :
  match ResultsPanelJSX.gaugeValue r with
  | JS.Dec _ _ f => f = 3%nat
  | JS.Str x => is_nan x = false /\ (abs x <? 1e21)%float = false
  end /\
  match ResultsPanelJSX.yieldValue r with
  | JS.Dec _ _ f => f = 2%nat
  | JS.Str x => is_nan x = false /\ (abs x <? 1e21)%float = false
  end /\
  (Api.ndvi r = None ->
   JS.render (ResultsPanelJSX.gaugeValue r) = Some "0.000") /\
  (Api.yield_prediction r = None ->
   JS.render (ResultsPanelJSX.yieldValue r) = Some "0.00").
Proof.
  unfold ResultsPanelJSX.gaugeValue, ResultsPanelJSX.yieldValue,
    ResultsPanel.ndviValue, ResultsPanel.yieldPrediction.
  pose proof (or_num_not_nan (Api.ndvi r)) as N1.
  pose proof (or_num_not_nan (Api.yield_prediction r)) as N2.
  pose proof (toFixed_number _ 3 N1) as T1.
  pose proof (toFixed_number _ 2 N2) as T2.
  split; [|split; [|split]].
  - destruct (JS.toFixed (JS.or_num (Api.ndvi r) 0) 3); [exact T1|].
    destruct T1 as [-> T1]. auto.
  - destruct (JS.toFixed (JS.or_num (Api.yield_prediction r) 0) 2);
      [exact T2|].
    destruct T2 as [-> T2]. auto.
  - intros ->. reflexivity.
  - intros ->. reflexivity.
Qed.

(** Zero divided by any number is zero or [NaN]: below every threshold. *)
Lemma zero_div_below (n : float) :
  (5 <=? 0 / n)%float = false /\ (2 <=? 0 / n)%float = false.
Proof.
  rewrite !leb_spec, !div_spec.
  change (Prim2SF 0) with (S754_zero false).
  destruct (Prim2SF n) as [[ | ] | [ | ] | | [ | ] m e]; split; reflexivity.
Qed.

(** A series without rain sums to zero. *)
Lemma sumRain_no_rain (rainfall : list Api.RainEntry) :
  Forall (fun d => match Api.rain d with
                   | Some x => JS.truthy x = false
                   | None => True
                   end) rainfall ->
  ResultsPanel.sumRain rainfall = 0%float.
Proof.
  unfold ResultsPanel.sumRain. induction 1 as [ | d l H _ IH]; [reflexivity|].
  cbn [fold_left].
  replace (JS.or_num (Api.rain d) 0) with 0%float; [exact IH|].
  destruct (Api.rain d) as [x | ]; [|reflexivity].
  cbn [JS.or_num]. rewrite H. reflexivity.
Qed.

(** X13. A series that holds no rain reads as a drought.  When the
    service gives no drought status and the series is not empty but none
    of its entries has rain (the [rain] is missing, 0 or [NaN]), the badge
    is "Severe Drought", not "Unknown", and the rainfall card shows the
    total 0.0 unless the statistics give one. *)
Theorem no_rain_is_severe_drought (r : Api.AnalysisResult) :
  ResultsPanel.backendStatus (Some (ResultsPanel.droughtData r)) = None ->
  ResultsPanel.rainfallData r <> [] ->
  Forall (fun d => match Api.rain d with
                   | Some x => JS.truthy x = false
                   | None => True
                   end) (ResultsPanel.rainfallData r) ->
  ResultsPanel.droughtStatus r
  = ResultsPanel.badge "Severe Drought" "status-critical" "🔥" /\
  (Api.total_rainfall (ResultsPanel.rainfallStats r) = None ->
   ResultsPanel.rainTotal r = ResultsPanel.RainMm (JS.Dec false 0 1)).
Proof.
  intros B NE Z. unfold ResultsPanel.droughtStatus, ResultsPanel.getDroughtStatus.
  rewrite B. pose proof (sumRain_no_rain _ Z) as S.
  unfold ResultsPanel.rainTotal.
  destruct (ResultsPanel.rainfallData r) as [ | d l] eqn:E; [congruence|].
  split.
  - rewrite S.
    destruct (zero_div_below (JS.of_nat (List.length (d :: l)))) as [-> ->].
    reflexivity.
  - intros ->. cbn [List.length Nat.ltb Nat.leb]. rewrite S. reflexivity.
Qed.

Lemma no_rain_is_severe_drought_witness :
  let dry :=
    Field.result None
      (Some {| Api.features :=
                 Some [{| Api.date := Some "2024-06-01"; Api.rain := None |};
                       {| Api.date := Some "2024-06-02"; Api.rain := Some 0%float |}];
               Api.statistics := None |})
      None None in
  ResultsPanel.droughtStatus dry
  = ResultsPanel.badge "Severe Drought" "status-critical" "🔥" /\
  ResultsPanel.rainTotal dry = ResultsPanel.RainMm (JS.Dec false 0 1).
Proof.
  cbn zeta.
  set (dry := Field.result _ _ _ _).
  assert (Z : Forall (fun d => match Api.rain d with
                               | Some x => JS.truthy x = false
                               | None => True
                               end) (ResultsPanel.rainfallData dry)).
  { repeat constructor. }
  pose proof (no_rain_is_severe_drought dry eq_refl ltac:(discriminate) Z)
    as [D T].
  split; [exact D | exact (T eq_refl)].
Defined.

(** What [slice(0, n)] keeps was in the array. *)
Lemma In_firstn {A : Type} (n : nat) (x : A) :
  forall l : list A, In x (firstn n l) -> In x l.
Proof.
  induction n as [ | n IH]; intros [ | a l] H; cbn [firstn] in H;
    try contradiction.
  destruct H as [H | H]; [left; exact H | right; apply IH, H].
Qed.

(** A comparator that never says "after" leaves an array as it is. *)
Lemma sort_nothing_after {A : Type} (comparefn : A -> A -> float)
  (l : list A) :
  (forall a b, In a l -> In b l -> JS.goes_after comparefn a b = false) ->
  JS.sort comparefn l = l.
Proof.
  induction l as [ | a l IH]; intros H; [reflexivity|].
  cbn [JS.sort]. rewrite IH by (intros; apply H; right; assumption).
  destruct l as [ | b l']; [reflexivity|].
  cbn [JS.insert]. rewrite H; [reflexivity | left; reflexivity |].
  right. left. reflexivity.
Qed.

(** X14. Land cover without pixels.  When the total of the counts is not
    above 0 (every count 0, or a total that is negative or [NaN]), no
    percent is computed: every entry gets the number 0, nothing is
    reordered, and the breakdown is the first five classes in the order of
    the mapping. *)
Theorem landcover_without_pixels (r : Api.AnalysisResult) :
  (0 <? ResultsPanel.totalPixels r)%float = false ->
  ResultsPanel.landcoverStats r
  = firstn 5 (map (ResultsPanel.landcoverEntry r) (ResultsPanel.landcover r)) /\
  Forall (fun e => ResultsPanel.Stat.percent e = ResultsPanel.PercentZero)
         (ResultsPanel.landcoverStats r) /\
  map ResultsPanel.Stat.code (ResultsPanel.landcoverStats r)
  = firstn 5 (map fst (ResultsPanel.landcover r)).
Proof.
  intros T.
  assert (P : forall e,
             In e (map (ResultsPanel.landcoverEntry r) (ResultsPanel.landcover r)) ->
             ResultsPanel.Stat.percent e = ResultsPanel.PercentZero).
  { intros e H. apply in_map_iff in H. destruct H as ([code count] & <- & _).
    unfold ResultsPanel.landcoverEntry. cbn [ResultsPanel.Stat.percent].
    rewrite T. reflexivity. }
  assert (S : ResultsPanel.landcoverStats r
              = firstn 5 (map (ResultsPanel.landcoverEntry r)
                              (ResultsPanel.landcover r))).
  { unfold ResultsPanel.landcoverStats. f_equal. apply sort_nothing_after.
    intros a b Ha Hb. unfold JS.goes_after, ResultsPanel.byPercentDesc.
    rewrite (P a Ha), (P b Hb). reflexivity. }
  split; [exact S|]. split.
  - rewrite S. apply Forall_forall. intros e H. apply P.
    eapply In_firstn; eassumption.
  - rewrite S, <- firstn_map, map_map. f_equal. apply map_ext.
    intros [code count]. reflexivity.
Qed.

Lemma landcover_without_pixels_witness :
  let r :=
    Field.result None None None
      (Some [(80%N, 0%float); (40%N, 0%float); (10%N, 0%float)]) in
  (0 <? ResultsPanel.totalPixels r)%float = false /\
  map ResultsPanel.Stat.code (ResultsPanel.landcoverStats r)
  = [80%N; 40%N; 10%N].
Proof.
  cbn zeta. split; [reflexivity|].
  exact (proj2 (proj2 (landcover_without_pixels
                         (Field.result None None None
                            (Some [(80%N, 0%float); (40%N, 0%float);
                                   (10%N, 0%float)]))
                         eq_refl))).
Defined.

(** * The rainfall chart *)

(** No entry passes the filter exactly when none carries rain. *)
Lemma filter_hasRain_nil (data : list Api.RainEntry) :
  filter RainfallChart.hasRain data = []
  <-> Forall (fun item => Api.rain item = None) data.
Proof.
  induction data as [ | item data IH]; cbn [filter].
  - split; [constructor | reflexivity].
  - unfold RainfallChart.hasRain at 1. destruct (Api.rain item) eqn:E.
    + split; [discriminate|]. intros H. inversion H. congruence.
    + rewrite IH. split; [constructor; assumption|].
      intros H. inversion H. assumption.
Qed.

(** X15. The chart plots the first thirty entries that carry rain.
    Entries whose [rain] is [null] or missing are skipped and do not count
    toward the thirty; the points come in the order of the series, from
    its start; no point is [NaN]; and "No rainfall data available" shows
    exactly when no entry carries rain. *)
Theorem chart_takes_first_thirty (toLocaleDateString : string -> string)
  (data : list Api.RainEntry) :
  let withRain := filter RainfallChart.hasRain data in
  let chartData := RainfallChart.chartData toLocaleDateString data in
  chartData
  = map (RainfallChart.toPoint toLocaleDateString) (firstn 30 withRain) /\
  List.length chartData = Nat.min 30 (List.length withRain) /\
  Forall (fun p => is_nan (RainfallChart.rainfall p) = false) chartData /\
  (RainfallChart.RainfallChart toLocaleDateString data
   = RainfallChart.NoRainfallData
   <-> Forall (fun item => Api.rain item = None) data) /\
  (forall early late,
     data = (early ++ late)%list ->
     (30 <= List.length (filter RainfallChart.hasRain early))%nat ->
     chartData = RainfallChart.chartData toLocaleDateString early).
Proof.
  cbn zeta. unfold RainfallChart.RainfallChart, RainfallChart.chartData.
  split; [apply firstn_map|].
  split; [rewrite length_firstn, length_map; reflexivity|].
  split.
  - apply Forall_forall. intros p H. apply In_firstn in H.
    apply in_map_iff in H. destruct H as (item & <- & _).
    cbn [RainfallChart.toPoint RainfallChart.rainfall]. apply or_num_not_nan.
  - split.
    + rewrite length_firstn, length_map, <- filter_hasRain_nil.
      destruct (filter RainfallChart.hasRain data); cbn;
        split; congruence.
    + intros early late -> L. rewrite filter_app, map_app.
      rewrite firstn_app, length_map.
      replace (30 - List.length (filter RainfallChart.hasRain early))%nat
        with 0%nat by lia.
      cbn [firstn]. apply app_nil_r.
Qed.

(** * The pollen and solar cards *)

(** Comparisons with [NaN] fail, and between numbers [c < x] is the
    opposite of [x <= c]. *)
Lemma leb_nan (x c : float) :
  is_nan x = true -> (x <=? c)%float = false /\ (c <=? x)%float = false.
Proof. intros N. split; apply leb_false; auto. Qed.

Lemma ltb_nan (x c : float) :
  is_nan x = true -> (x <? c)%float = false /\ (c <? x)%float = false.
Proof. intros N. split; apply ltb_false; auto. Qed.

Lemma ltb_negb_leb (x y : float) :
  is_nan x = false -> is_nan y = false ->
  (y <? x)%float = negb (x <=? y)%float.
Proof.
  intros Nx Ny. destruct (x <=? y)%float eqn:H; read_order H; cbn [negb].
  - apply ltb_false. right. right. lia.
  - apply ltb_true. destruct H as [H | [H | H]]; try congruence. auto.
Qed.

Lemma leb_below (x c c' : float) :
  (c <? c')%float = true -> (x <=? c)%float = true -> (x <=? c')%float = true.
Proof.
  intros H1 H2. apply ltb_true in H1. apply leb_true in H2. apply leb_true.
  repeat split; try tauto. lia.
Qed.

Lemma leb_above (x c c' : float) :
  (c' <? c)%float = true -> (c <=? x)%float = true -> (c' <=? x)%float = true.
Proof.
  intros H1 H2. apply ltb_true in H1. apply leb_true in H2. apply leb_true.
  repeat split; try tauto. lia.
Qed.

(** X16. The colors of the pollen levels.  A level up to 1 is green
    (#22c55e), above 1 up to 2 lime (#84cc16), above 2 up to 3 yellow
    (#eab308), above 3 up to 4 amber (#f59e0b); everything else is red
    (#ef4444): a level above 4, and also a level that is [NaN]. *)
Theorem pollen_level_color (level : float) :
  (PollenCard.getLevelColor level = "#22c55e"
   <-> (level <=? 1)%float = true) /\
  (PollenCard.getLevelColor level = "#84cc16"
   <-> (1 <? level)%float = true /\ (level <=? 2)%float = true) /\
  (PollenCard.getLevelColor level = "#eab308"
   <-> (2 <? level)%float = true /\ (level <=? 3)%float = true) /\
  (PollenCard.getLevelColor level = "#f59e0b"
   <-> (3 <? level)%float = true /\ (level <=? 4)%float = true) /\
  (PollenCard.getLevelColor level = "#ef4444"
   <-> is_nan level = true \/ (4 <? level)%float = true).
Proof.
  unfold PollenCard.getLevelColor.
  destruct (is_nan level) eqn:N.
  - rewrite (proj1 (leb_nan level 1 N)), (proj1 (leb_nan level 2 N)),
      (proj1 (leb_nan level 3 N)), (proj1 (leb_nan level 4 N)),
      (proj2 (ltb_nan level 1 N)), (proj2 (ltb_nan level 2 N)),
      (proj2 (ltb_nan level 3 N)), (proj2 (ltb_nan level 4 N)).
    repeat split; intros; try discriminate; try tauto;
      try (destruct H; discriminate).
  - rewrite (ltb_negb_leb level 1 N eq_refl), (ltb_negb_leb level 2 N eq_refl),
      (ltb_negb_leb level 3 N eq_refl), (ltb_negb_leb level 4 N eq_refl).
    pose proof (leb_below level 1 2 eq_refl) as M12.
    pose proof (leb_below level 2 3 eq_refl) as M23.
    pose proof (leb_below level 3 4 eq_refl) as M34.
    destruct (level <=? 1)%float;
      [rewrite (M12 eq_refl) in *|];
      destruct (level <=? 2)%float;
      try rewrite (M23 eq_refl) in *;
      destruct (level <=? 3)%float;
      try rewrite (M34 eq_refl) in *;
      destruct (level <=? 4)%float; cbn [negb];
      repeat split; intros; try reflexivity; try discriminate;
      try (destruct H; discriminate); try (right; reflexivity).
Qed.

(** X17. The dots of the pollen trend.  There are as many dots as days,
    five at most, and the trend is there from two days on.  A day that has
    no [pollen_types] gets the green dot of level 0; a day whose list of
    types is empty gets the red one, its average being 0 / 0. *)
Theorem pollen_trend_dots (daily_forecast : list PollenCard.Day) :
  List.length (PollenCard.trendDots daily_forecast)
  = Nat.min 5 (List.length daily_forecast) /\
  (PollenCard.trendShown (Some daily_forecast) = true
   <-> (2 <= List.length daily_forecast)%nat) /\
  (forall day, PollenCard.pollen_types day = None ->
     PollenCard.getLevelColor (PollenCard.avgLevel day) = "#22c55e") /\
  (forall day, PollenCard.pollen_types day = Some [] ->
     is_nan (PollenCard.avgLevel day) = true /\
     PollenCard.getLevelColor (PollenCard.avgLevel day) = "#ef4444").
Proof.
  split; [unfold PollenCard.trendDots;
          rewrite length_map, length_firstn; reflexivity|].
  split; [unfold PollenCard.trendShown; apply Nat.ltb_lt|].
  split; [intros day E; unfold PollenCard.avgLevel; rewrite E; reflexivity|].
  intros day E; unfold PollenCard.avgLevel; rewrite E; split; reflexivity.
Qed.

(** X18. The colors of the solar score.  A score of 80 or more is amber
    (#f59e0b), from 60 up to 80 yellow (#eab308), from 40 up to 60 lime
    (#84cc16); everything else is grey (#64748b): a score below 40, and
    also a score that is [NaN]. *)
Theorem solar_score_color (score : float) :
  (SolarCard.getScoreColor score = "#f59e0b"
   <-> (80 <=? score)%float = true) /\
  (SolarCard.getScoreColor score = "#eab308"
   <-> (60 <=? score)%float = true /\ (score <? 80)%float = true) /\
  (SolarCard.getScoreColor score = "#84cc16"
   <-> (40 <=? score)%float = true /\ (score <? 60)%float = true) /\
  (SolarCard.getScoreColor score = "#64748b"
   <-> is_nan score = true \/ (score <? 40)%float = true).
Proof.
  unfold SolarCard.getScoreColor.
  destruct (is_nan score) eqn:N.
  - rewrite (proj2 (leb_nan score 80 N)), (proj2 (leb_nan score 60 N)),
      (proj2 (leb_nan score 40 N)),
      (proj1 (ltb_nan score 80 N)), (proj1 (ltb_nan score 60 N)),
      (proj1 (ltb_nan score 40 N)).
    repeat split; intros; try discriminate; try tauto;
      try (destruct H; discriminate).
  - rewrite (ltb_negb_leb 80 score eq_refl N),
      (ltb_negb_leb 60 score eq_refl N), (ltb_negb_leb 40 score eq_refl N).
    pose proof (leb_above score 80 60 eq_refl) as M86.
    pose proof (leb_above score 60 40 eq_refl) as M64.
    destruct (80 <=? score)%float;
      [rewrite (M86 eq_refl) in *|];
      destruct (60 <=? score)%float;
      try rewrite (M64 eq_refl) in *;
      destruct (40 <=? score)%float; cbn [negb];
      repeat split; intros; try reflexivity; try discriminate;
      try (destruct H; discriminate); try (right; reflexivity).
Qed.

(** * The examples of the specification *)

Example ndvi_at_the_boundary :
  ResultsPanel.getNDVIStatus 0.6 = Vegetation.Excellent /\
  ResultsPanel.getNDVIStatus 0.59999 = Vegetation.Good /\
  ResultsPanel.getNDVIStatus 0 = Vegetation.Poor.
Proof. repeat split. Qed.

Example landcover_of_two_classes :
  map (fun e => (ResultsPanel.Stat.code e, ResultsPanel.Stat.name e,
                 ResultsPanel.Stat.percent e))
      (ResultsPanel.landcoverStats
         (Field.result None None None
            (Some [(40%N, 80%float); (80%N, 20%float)])))
  = [(40%N, "Cropland", ResultsPanel.PercentText (JS.Dec false 800 1));
     (80%N, "Water", ResultsPanel.PercentText (JS.Dec false 200 1))] /\
  JS.render (JS.Dec false 800 1) = Some "80.0" /\
  JS.render (JS.Dec false 200 1) = Some "20.0".
Proof. repeat split. Qed.

Example landcover_of_no_class :
  ResultsPanel.totalPixels (Field.result None None None (Some [])) = 0%float /\
  ResultsPanel.landcoverStats (Field.result None None None (Some [])) = [] /\
  ResultsPanel.landcoverStats (Field.result None None None None) = [].
Proof. repeat split. Qed.

(** A total of zero gives every entry the number 0, and the order of the
    mapping is kept. *)
Example landcover_of_empty_classes :
  map (fun e => (ResultsPanel.Stat.code e, ResultsPanel.Stat.percent e))
      (ResultsPanel.landcoverStats
         (Field.result None None None
            (Some [(80%N, 0%float); (40%N, 0%float)])))
  = [(80%N, ResultsPanel.PercentZero); (40%N, ResultsPanel.PercentZero)].
Proof. reflexivity. Qed.

(** [toFixed] rounds the binary64 value, not the decimal it was written
    as: 3 pixels of 2000 are 0.15 percent, a number just below 0.15, shown
    as "0.1"; a quarter percent is shown as "0.3". *)
Example toFixed_rounds_the_binary_value :
  JS.render (JS.toFixed (3 / 2000 * 100) 1) = Some "0.1" /\
  JS.render (JS.toFixed 0.25 1) = Some "0.3" /\
  JS.render (JS.toFixed 42.5 1) = Some "42.5" /\
  JS.render (JS.toFixed (-0.04) 1) = Some "-0.0".
Proof. repeat split. Qed.

(** Cancelling a drawing leaves the boundary and the result alone. *)
Lemma cancel_keeps_boundary (s : App.State) :
  App.polygonPath (fst (App.handleCancelDrawing s)) = App.polygonPath s /\
  App.analysisResults (fst (App.handleCancelDrawing s))
  = App.analysisResults s.
Proof. unfold App.handleCancelDrawing. destruct (App.polygon s); split; reflexivity. Qed.
